(** * Mock-Interview-App: the Streamlit interview script (src/app.py)

    A shallow embedding of [app.py] and the properties of its chat client
    ([groq_chat]), its prompt builder ([generate_profile]) and its interview
    page ([page_interview]).

    Python values are modelled as the script has them:
    - a [str] is a sequence of Unicode code points ([list N]);
    - [st.session_state] is one mutable store, threaded through every call,
      so that a mutation made before an exception is raised is still there
      after it;
    - the Groq endpoint is an oracle answering the n-th [create] call;
      [create] calls, [time.sleep] calls and [st.error] notices are logged
      in a trace. *)

From Stdlib Require Import Ascii String.
From Stdlib Require Import ZArith NArith QArith Arith Bool Lia List.
Import ListNotations.
Close Scope Q_scope.

(* ===================================================================== *)
(** ** Python strings *)
(* ===================================================================== *)

Module PyStr.

(** A Python [str]: its code points. *)
Definition str := list N.

(** Decoding of a literal written in this file (UTF-8 bytes) into code
    points; [need] continuation bytes are still expected for [acc]. *)
Fixpoint utf8_decode (need : nat) (acc : N) (bs : list N) : str :=
  match bs with
  | [] => []
  | b :: rest =>
      match need with
      | S k =>
          let acc' := (acc * 64 + b mod 64)%N in
          match k with
          | O => acc' :: utf8_decode 0 0 rest
          | S _ => utf8_decode k acc' rest
          end
      | O =>
          if (b <? 128)%N then b :: utf8_decode 0 0 rest
          else if (b <? 224)%N then utf8_decode 1 (b mod 32)%N rest
          else if (b <? 240)%N then utf8_decode 2 (b mod 16)%N rest
          else utf8_decode 3 (b mod 8)%N rest
      end
  end.

Definition py (s : string) : str :=
  utf8_decode 0 0 (map N_of_ascii (list_ascii_of_string s)).

Definition str_eqb (a b : str) : bool :=
  if list_eq_dec N.eq_dec a b then true else false.

Definition is_empty (s : str) : bool :=
  match s with [] => true | _ :: _ => false end.

(** [s.startswith(prefix)] *)
Fixpoint startswith (s prefix : str) {struct prefix} : bool :=
  match prefix, s with
  | [], _ => true
  | p :: ps, c :: cs => (p =? c)%N && startswith cs ps
  | _ :: _, [] => false
  end.

(** [s.find(sub)], with [None] for Python's -1. *)
Fixpoint find (s sub : str) : option nat :=
  if startswith s sub then Some 0
  else match s with
       | [] => None
       | _ :: t => option_map S (find t sub)
       end.

(** [s.split(sep, maxsplit)] for a non-empty [sep]: cut at the leftmost
    occurrence, at most [maxsplit] times. *)
Fixpoint split (s sep : str) (maxsplit : nat) : list str :=
  match maxsplit with
  | O => [s]
  | S m =>
      match find s sep with
      | None => [s]
      | Some i => firstn i s :: split (skipn (i + length sep) s) sep m
      end
  end.

(** [s.split(sep)]: no limit on the number of cuts; a non-empty [sep]
    is found at most [len(s)] times. *)
Definition split_all (s sep : str) : list str := split s sep (length s).

(** [sep.join(parts)] *)
Fixpoint join (sep : str) (parts : list str) : str :=
  match parts with
  | [] => []
  | [p] => p
  | p :: rest => p ++ sep ++ join sep rest
  end.

(** [s.replace(old, new)] for a non-empty [old]: the occurrences found by
    the left-to-right scan of [split] are replaced. *)
Definition replace (s old new : str) : str := join new (split_all s old).

(** Code points that [str.strip()] removes (Unicode white space). *)
Definition isspace (c : N) : bool :=
  ((9 <=? c) && (c <=? 13) || (28 <=? c) && (c <=? 32)
   || (c =? 133) || (c =? 160) || (c =? 5760)
   || (8192 <=? c) && (c <=? 8202) || (c =? 8232) || (c =? 8233)
   || (c =? 8239) || (c =? 8287) || (c =? 12288))%N.

Fixpoint lstrip (s : str) : str :=
  match s with
  | c :: t => if isspace c then lstrip t else s
  | [] => []
  end.

Definition rstrip (s : str) : str := rev (lstrip (rev s)).

(** [s.strip()] *)
Definition strip (s : str) : str := rstrip (lstrip s).

(** *** [textwrap.dedent] *)

Definition is_blank (c : N) : bool := ((c =? 32) || (c =? 9))%N.

Definition newline : str := [10%N].

Fixpoint leading_blanks (l : str) : str :=
  match l with
  | c :: t => if is_blank c then c :: leading_blanks t else []
  | [] => []
  end.

(** The longest common prefix: what the margin loop of [dedent] keeps of
    the margin so far and the next line's indentation. *)
Fixpoint common_prefix (a b : str) : str :=
  match a, b with
  | x :: a', y :: b' => if (x =? y)%N then x :: common_prefix a' b' else []
  | _, _ => []
  end.

Definition remove_prefix (m l : str) : str :=
  if startswith l m then skipn (length m) l else l.

(** [textwrap.dedent(text)], as its regular expressions define it: a
    line of spaces and tabs only becomes empty, the margin is the common
    prefix of the leading spaces and tabs of the other lines, and it is
    removed from every line that starts with it. *)
Definition dedent (text : str) : str :=
  let ls := map (fun l => if forallb is_blank l then [] else l)
                (split_all text newline) in
  match map leading_blanks (filter (fun l => negb (is_empty l)) ls) with
  | [] => join newline ls
  | i :: rest =>
      let margin := fold_left common_prefix rest i in
      if is_empty margin then join newline ls
      else join newline (map (remove_prefix margin) ls)
  end.

(** [sub in s], as a proposition. *)
Definition contains (s sub : str) : Prop :=
  exists pre post, s = pre ++ sub ++ post.

End PyStr.
Import PyStr.

(* ===================================================================== *)
(** ** Data model *)
(* ===================================================================== *)

(** [MODEL_NAME] *)
Definition MODEL_NAME : str := py "meta-llama/llama-4-maverick-17b-128e-instruct".

(** Exceptions that unwind the script. [GroqError] carries the
    [status_code] and [message] the script reads; [RerunException] and
    [StopException] are what [st.rerun()] and [st.stop()] raise. *)
Inductive exn :=
| GroqError (status_code : Z) (message : str)
| AttributeError
| IndexError
| KeyError
| ValueError
| RerunException
| StopException.

(** What a call returns: a value, or a raised exception. *)
Inductive Outcome (A : Type) :=
| Returned (a : A)
| Raised (e : exn).
Arguments Returned {A} a.
Arguments Raised {A} e.

(** The keys of the router: [st.session_state.page]. *)
Inductive Page := apikey | landing | setup | profile | interview.

(** The [form] dict: the seven keys of [init_session] and of every
    template. *)
Record Form := {
  company_name : str;
  job_title : str;
  company_desc : str;
  job_desc : str;
  round : str;
  tech_stack : str;
  criteria : str
}.

(** The [role] of a history entry. *)
Inductive Role := interviewer | candidate.

Definition role_str (r : Role) : str :=
  match r with
  | interviewer => py "interviewer"
  | candidate => py "candidate"
  end.

(** [m['role'].capitalize()] *)
Definition role_capitalized (r : Role) : str :=
  match r with
  | interviewer => py "Interviewer"
  | candidate => py "Candidate"
  end.

(** A history entry [{"role": .., "content": .., "eval": ..}]; [eval] is
    [None] or a [str]. *)
Record Turn := {
  role : Role;
  content : str;
  eval : option str
}.

(** The client handle [Groq(api_key=key)]. *)
Record Groq := { groq_key : str }.

(** [st.session_state]. [profile_md] and [report_md] hold what
    [groq_chat] returned, which is a [str] or [None]. *)
Record Session := {
  page : Page;
  api_key : str;
  client : option Groq;
  form : Form;
  profile_md : option str;
  history : list Turn;
  show_eval : bool;
  report_md : option str
}.

Definition set_page (p : Page) (s : Session) : Session :=
  {| page := p; api_key := api_key s; client := client s; form := form s;
     profile_md := profile_md s; history := history s;
     show_eval := show_eval s; report_md := report_md s |}.

Definition set_api_key (k : str) (s : Session) : Session :=
  {| page := page s; api_key := k; client := client s; form := form s;
     profile_md := profile_md s; history := history s;
     show_eval := show_eval s; report_md := report_md s |}.

Definition set_client (c : option Groq) (s : Session) : Session :=
  {| page := page s; api_key := api_key s; client := c; form := form s;
     profile_md := profile_md s; history := history s;
     show_eval := show_eval s; report_md := report_md s |}.

Definition set_form (f : Form) (s : Session) : Session :=
  {| page := page s; api_key := api_key s; client := client s; form := f;
     profile_md := profile_md s; history := history s;
     show_eval := show_eval s; report_md := report_md s |}.

Definition set_profile_md (p : option str) (s : Session) : Session :=
  {| page := page s; api_key := api_key s; client := client s; form := form s;
     profile_md := p; history := history s;
     show_eval := show_eval s; report_md := report_md s |}.

Definition set_history (h : list Turn) (s : Session) : Session :=
  {| page := page s; api_key := api_key s; client := client s; form := form s;
     profile_md := profile_md s; history := h;
     show_eval := show_eval s; report_md := report_md s |}.

Definition set_show_eval (b : bool) (s : Session) : Session :=
  {| page := page s; api_key := api_key s; client := client s; form := form s;
     profile_md := profile_md s; history := history s;
     show_eval := b; report_md := report_md s |}.

Definition set_report_md (r : option str) (s : Session) : Session :=
  {| page := page s; api_key := api_key s; client := client s; form := form s;
     profile_md := profile_md s; history := history s;
     show_eval := show_eval s; report_md := r |}.

(** One entry of the [messages] list. *)
Record Message := { m_role : str; m_content : str }.

(** The arguments of [cli.chat.completions.create]. *)
Record Request := {
  r_client : Groq;
  r_model : str;
  r_messages : list Message;
  r_temperature : option Q;
  r_max_tokens : option Z
}.

(** What the endpoint answers: the text of [r.choices[0].message.content],
    or an exception. *)
Inductive Response :=
| Completion (text : str)
| Failure (e : exn).

(** What the script does to the outside, in order. *)
Inductive Event :=
| Create (req : Request)
| Sleep (seconds : Z)
| StError (notice : str).

(** The widgets of one script run, by label: what the user clicked,
    typed or selected. *)
Record Widgets := {
  button : str -> bool;
  text_input : str -> str;
  text_area : str -> str;
  selected : str -> nat;
  checkbox : str -> bool;
  chat_input : str -> option str
}.

(** [st.selectbox(label, options, index)]: the option at the selected
    position, the one at [index] when that position is not an option. *)
Definition st_selectbox (w : Widgets) (label : str) (options : list str)
    (index : nat) : str :=
  nth (selected w label) options (nth index options []).

(** ** The script monad *)

Record State := { sess : Session; trace : list Event }.

Definition M (A : Type) : Type := State -> Outcome A * State.

Definition ret {A} (a : A) : M A := fun st => (Returned a, st).

Definition bind {A B} (m : M A) (k : A -> M B) : M B :=
  fun st =>
    match m st with
    | (Returned a, st') => k a st'
    | (Raised e, st') => (Raised e, st')
    end.

Definition raise {A} (e : exn) : M A := fun st => (Raised e, st).

Notation "x <- m ;; k" := (bind m (fun x => k))
  (at level 61, m at next level, right associativity).
Notation "m ;; k" := (bind m (fun _ => k))
  (at level 61, right associativity).

Definition get : M Session := fun st => (Returned (sess st), st).

Definition modify (f : Session -> Session) : M unit :=
  fun st => (Returned tt, {| sess := f (sess st); trace := trace st |}).

Definition emit (ev : Event) : M unit :=
  fun st => (Returned tt, {| sess := sess st; trace := trace st ++ [ev] |}).

Definition when (b : bool) (m : M unit) : M unit :=
  if b then m else ret tt.

(** [st.rerun()], [st.stop()], [time.sleep], [st.error] *)
Definition st_rerun {A} : M A := raise RerunException.
Definition st_stop {A} : M A := raise StopException.
Definition time_sleep (seconds : Z) : M unit := emit (Sleep seconds).
Definition st_error (notice : str) : M unit := emit (StError notice).

(* ===================================================================== *)
(** ** Templates and session defaults *)
(* ===================================================================== *)

(** [PRELOADED_TEMPLATES], in the order of the dict. *)
Definition PRELOADED_TEMPLATES : list (str * Form) :=
  [ (py "Full-Stack Developer",
     {| company_name := py "Tech Corp";
        job_title := py "Senior Full-Stack Developer";
        company_desc := py "A product-led SaaS scale-up delivering web & mobile solutions.";
        job_desc := py "Own the end-to-end SDLC, design scalable REST/GraphQL APIs, and coach juniors.";
        round := py "Technical";
        tech_stack := py "Python, TypeScript, React, Node.js, AWS";
        criteria := py "System-design depth, code quality, mentorship mindset." |});
    (py "Machine-Learning Engineer",
     {| company_name := py "Vision AI Labs";
        job_title := py "ML Engineer";
        company_desc := py "We build computer-vision products for logistics.";
        job_desc := py "Prototype & ship deep-learning models, own MLOps pipeline.";
        round := py "Technical";
        tech_stack := py "Python, PyTorch, TensorFlow, Kubeflow";
        criteria := py "Model-building, data-centric mindset, deployment chops." |});
    (py "DevOps Engineer",
     {| company_name := py "CloudOps Inc.";
        job_title := py "DevOps Engineer (AWS / K8s)";
        company_desc := py "Managed-services provider focused on high-availability platforms.";
        job_desc := py "Automate IaC, CI/CD, observability and incident response.";
        round := py "Technical";
        tech_stack := py "AWS, Terraform, Docker, Kubernetes, Go";
        criteria := py "Resilience patterns, IaC best-practices, SRE thinking." |});
    (py "Product Manager",
     {| company_name := py "FinTech Neo";
        job_title := py "Product Manager – Payments";
        company_desc := py "Digital bank building next-gen payments experience.";
        job_desc := py "Define roadmap, own KPIs, collaborate with design & engineering.";
        round := py "Behavioral";
        tech_stack := [];
        criteria := py "Stakeholder comms, metrics-driven decisions, user empathy." |}) ].

(** [PRELOADED_TEMPLATES[name]] *)
Fixpoint lookup_template (name : str) (items : list (str * Form)) : option Form :=
  match items with
  | [] => None
  | (k, tpl) :: rest => if str_eqb k name then Some tpl else lookup_template name rest
  end.

(** [init_session] on a fresh [st.session_state]; [env_key] is
    [os.getenv("GROQ_API_KEY")]. *)
Definition init_session (env_key : option str) : Session :=
  {| page := match env_key with
             | Some (_ :: _) => landing
             | _ => apikey
             end;
     api_key := match env_key with Some k => k | None => [] end;
     client := None;
     form := {| company_name := []; job_title := [];
                company_desc := []; job_desc := [];
                round := py "Technical"; tech_stack := []; criteria := [] |};
     profile_md := Some []; history := []; show_eval := true;
     report_md := Some [] |}.

(** How an f-string renders a value that is a [str] or [None]. *)
Definition fmt (v : option str) : str :=
  match v with
  | Some s => s
  | None => py "None"
  end.

(** Truth value of a [str] or [None]. *)
Definition truthy (v : option str) : bool :=
  match v with
  | Some (_ :: _) => true
  | _ => false
  end.

(** [v.strip()] on what [groq_chat] returned: [None] has no [strip]. *)
Definition strip_result (v : option str) : M str :=
  match v with
  | Some s => ret (strip s)
  | None => raise AttributeError
  end.

(** [e.status_code in (429, 500, 503)] *)
Definition transient (status_code : Z) : bool :=
  ((status_code =? 429) || (status_code =? 500) || (status_code =? 503))%Z.

(** Number of [create] calls made so far. *)
Fixpoint creates (tr : list Event) : nat :=
  match tr with
  | [] => 0
  | Create _ :: rest => S (creates rest)
  | _ :: rest => creates rest
  end.

(** The waits of a trace, in order. *)
Fixpoint sleeps (tr : list Event) : list Z :=
  match tr with
  | [] => []
  | Sleep n :: rest => n :: sleeps rest
  | _ :: rest => sleeps rest
  end.

(** [try: body; except GroqError as e: handler]: other exceptions pass. *)
Definition try_except_GroqError {A B} (body : M A) (on_return : A -> M B)
    (handler : Z -> str -> M B) : M B :=
  fun st =>
    match body st with
    | (Returned a, st') => on_return a st'
    | (Raised (GroqError status_code message), st') =>
        handler status_code message st'
    | (Raised e, st') => (Raised e, st')
    end.

(* ===================================================================== *)
(** ** The chat client *)
(* ===================================================================== *)

Section App.

(** The endpoint: its answer to the n-th [create] call of the session. *)
Variable endpoint : nat -> Request -> Response.

(** [cli.chat.completions.create(...)] *)
Definition create (req : Request) : M str :=
  fun st =>
    let st' := {| sess := sess st; trace := trace st ++ [Create req] |} in
    match endpoint (creates (trace st)) req with
    | Completion text => (Returned text, st')
    | Failure e => (Raised e, st')
    end.

Definition ping (cli : Groq) : Request :=
  {| r_client := cli; r_model := MODEL_NAME;
     r_messages := [ {| m_role := py "user"; m_content := py "ping" |} ];
     r_temperature := None; r_max_tokens := Some 1%Z |}.

Definition get_client : M Groq :=
  s <- get ;;
  match client s with
  | Some cli => ret cli
  | None =>
      let key := api_key s in
      when (is_empty key) (modify (set_page apikey) ;; st_rerun) ;;
      let cli := {| groq_key := key |} in
      try_except_GroqError (create (ping cli))
        (fun _ => ret tt)
        (fun _ message =>
           st_error (py "API key error: " ++ message) ;; st_stop) ;;
      modify (set_client (Some cli)) ;;
      ret cli
  end.

(** The loop [for attempt in range(3)] of [groq_chat], over what is left
    of the range; falling off the loop, the function returns [None]. *)
Fixpoint attempts (cli : Groq) (msgs : list Message) (temperature : Q)
    (range : list nat) : M (option str) :=
  match range with
  | [] => ret None
  | attempt :: rest =>
      try_except_GroqError
        (create {| r_client := cli; r_model := MODEL_NAME;
                   r_messages := msgs;
                   r_temperature := Some temperature;
                   r_max_tokens := None |})
        (fun text => ret (Some text))
        (fun status_code message =>
           if transient status_code
           then time_sleep (2 ^ Z.of_nat attempt) ;;
                attempts cli msgs temperature rest
           else raise (GroqError status_code message))
  end.

(** [groq_chat(msgs, temperature)]; every caller passes the temperature,
    the default 0.4 is never used. Annotated [-> str], it returns the text
    of the successful attempt, or [None] once the loop is over. *)
Definition groq_chat (msgs : list Message) (temperature : Q) : M (option str) :=
  cli <- get_client ;;
  attempts cli msgs temperature (seq 0 3).

(* =================================================================== *)
(** ** The pages *)
(* =================================================================== *)

(** Calls that only draw ([st.title], [st.header], [st.markdown],
    [st.chat_message], [st.expander], [st.spinner], [st.columns]) read
    the session and change nothing; they are left out. *)

Definition page_apikey (w : Widgets) : M unit :=
  let key := text_input w (py "Groq API Key") in
  when (button w (py "Save & continue") && negb (is_empty key))
    (modify (set_api_key key) ;;
     modify (set_page landing) ;;
     st_rerun).

(** [f.update(tpl)], for a template, which has the seven keys. *)
Definition form_update (f tpl : Form) : Form :=
  {| company_name := company_name tpl; job_title := job_title tpl;
     company_desc := company_desc tpl; job_desc := job_desc tpl;
     round := round tpl; tech_stack := tech_stack tpl;
     criteria := criteria tpl |}.

Definition update_form (g : Form -> Form) : M unit :=
  modify (fun s => set_form (g (form s)) s).

Definition tech_block (form : Form) : str :=
  if is_empty (tech_stack form) then []
  else py "Tech Stack: " ++ tech_stack form ++ newline.

(** The text handed to [textwrap.dedent] in [generate_profile], with
    the tech block spliced in. *)
Definition profile_template (form : Form) (block : str) : str :=
  py "
        You are an expert interviewer-profile generator.

        Produce a concise markdown profile including:
        1. **A realistic Name & Title** (e.g. “Jordan Lee – Senior Product Manager”) — **never use placeholders**
        2. Interview Style
        3. Core Focus Areas
        4. Typical Question Types
        5. Evaluation Rubric
        6. Culture-fit Signals
        7. Common Candidate Mistakes

        Company: " ++ company_name form ++ py "
        Job title: " ++ job_title form ++ py "
        Company description: " ++ company_desc form ++ py "
        Job description: " ++ job_desc form ++ py "
        Interview round: " ++ round form ++ py "
        " ++ block ++ py "
        Evaluation criteria: " ++ criteria form ++ py "
    ".

Definition profile_prompt (form : Form) : str :=
  dedent (profile_template form (tech_block form)).

Definition generate_profile (form : Form) : M (option str) :=
  groq_chat [ {| m_role := py "system";
                 m_content := py "You are an expert interview assistant" |};
              {| m_role := py "user"; m_content := profile_prompt form |} ]
            (3 # 10)%Q.

(** The template buttons of [page_landing], over what is left of
    [PRELOADED_TEMPLATES.items()]. *)
Fixpoint landing_buttons (w : Widgets) (items : list (str * Form)) : M unit :=
  match items with
  | [] => ret tt
  | (name, tpl) :: rest =>
      when (button w name)
        (update_form (fun f => form_update f tpl) ;;
         p <- generate_profile tpl ;;
         modify (set_profile_md p) ;;
         modify (set_page profile) ;;
         st_rerun) ;;
      landing_buttons w rest
  end.

Definition page_landing (w : Widgets) : M unit :=
  landing_buttons w PRELOADED_TEMPLATES ;;
  when (button w (py "🔧 Custom setup (fill your own details)"))
    (modify (set_page setup) ;;
     st_rerun).

Definition round_options : list str :=
  [py "Technical"; py "Behavioral"; py "HR / Cultural Fit"; py "Case Study"].

(** [options.index(x)]: [ValueError] when [x] is not an option. *)
Fixpoint list_index (x : str) (options : list str) : option nat :=
  match options with
  | [] => None
  | o :: rest => if str_eqb o x then Some 0 else option_map S (list_index x rest)
  end.

(** Lines 155-158 of [page_setup]: the template selector. *)
Definition load_template (w : Widgets) : M unit :=
  let tpl_names := py "— choose template —" :: map fst PRELOADED_TEMPLATES in
  let chosen := st_selectbox w (py "Load a template") tpl_names 0 in
  when (negb (str_eqb chosen (nth 0 tpl_names [])))
    (match lookup_template chosen PRELOADED_TEMPLATES with
     | Some tpl => update_form (fun f => form_update f tpl)
     | None => raise KeyError
     end).

(** Lines 162-176: the text fields, the round and the check box, written
    into the session's form ([f] is [st.session_state.form] itself). *)
Definition form_inputs (w : Widgets) : M unit :=
  update_form (fun f =>
    {| company_name := text_input w (py "Company name"); job_title := job_title f;
       company_desc := company_desc f; job_desc := job_desc f;
       round := round f; tech_stack := tech_stack f; criteria := criteria f |}) ;;
  update_form (fun f =>
    {| company_name := company_name f; job_title := text_input w (py "Job title");
       company_desc := company_desc f; job_desc := job_desc f;
       round := round f; tech_stack := tech_stack f; criteria := criteria f |}) ;;
  update_form (fun f =>
    {| company_name := company_name f; job_title := job_title f;
       company_desc := text_area w (py "Company description"); job_desc := job_desc f;
       round := round f; tech_stack := tech_stack f; criteria := criteria f |}) ;;
  update_form (fun f =>
    {| company_name := company_name f; job_title := job_title f;
       company_desc := company_desc f; job_desc := text_area w (py "Job description");
       round := round f; tech_stack := tech_stack f; criteria := criteria f |}) ;;
  s <- get ;;
  index <- match list_index (round (form s)) round_options with
           | Some i => ret i
           | None => raise ValueError
           end ;;
  update_form (fun f =>
    {| company_name := company_name f; job_title := job_title f;
       company_desc := company_desc f; job_desc := job_desc f;
       round := st_selectbox w (py "Interview round") round_options index;
       tech_stack := tech_stack f; criteria := criteria f |}) ;;
  modify (set_show_eval (checkbox w (py "Show real-time evaluation"))).

(** Lines 177-181: the tech stack, asked for the Technical round only. *)
Definition tech_stack_input (w : Widgets) : M unit :=
  s <- get ;;
  if str_eqb (round (form s)) (py "Technical")
  then update_form (fun f =>
    {| company_name := company_name f; job_title := job_title f;
       company_desc := company_desc f; job_desc := job_desc f;
       round := round f;
       tech_stack := text_input w (py "Tech stack (comma-separated)");
       criteria := criteria f |})
  else update_form (fun f =>
    {| company_name := company_name f; job_title := job_title f;
       company_desc := company_desc f; job_desc := job_desc f;
       round := round f; tech_stack := []; criteria := criteria f |}).

(** Lines 182-183: the criteria. *)
Definition criteria_input (w : Widgets) : M unit :=
  update_form (fun f =>
    {| company_name := company_name f; job_title := job_title f;
       company_desc := company_desc f; job_desc := job_desc f;
       round := round f; tech_stack := tech_stack f;
       criteria := text_area w (py "Evaluation criteria") |}).

(** Lines 155-183 of [page_setup]: the widgets written into the form. *)
Definition fill_form (w : Widgets) : M unit :=
  load_template w ;;
  form_inputs w ;;
  tech_stack_input w ;;
  criteria_input w.

Definition page_setup (w : Widgets) : M unit :=
  fill_form w ;;
  when (button w (py "Generate interviewer profile"))
    (s <- get ;;
     p <- generate_profile (form s) ;;
     modify (set_profile_md p) ;;
     modify (set_page profile) ;;
     st_rerun).

Definition page_profile (w : Widgets) : M unit :=
  when (button w (py "🚀 Start interview"))
    (modify (set_history []) ;;
     modify (set_report_md (Some [])) ;;
     modify (set_page interview) ;;
     st_rerun) ;;
  when (button w (py "✏️ Edit setup"))
    (modify (set_page setup) ;;
     st_rerun).

(** *** The interview page *)

Definition QUESTION : str := py "QUESTION:".
Definition EVALUATION : str := py "EVALUATION:".

(** [a, b = parts]: [ValueError] unless there are exactly two. *)
Definition unpack2 (parts : list str) : Outcome (str * str) :=
  match parts with
  | [a; b] => Returned (a, b)
  | _ => Raised ValueError
  end.

(** Lines 281-286: the reply cut into [(eval_text, question)]. Only the
    unpacking can raise, and what it raises is caught. *)
Definition parse_reply (resp : str) : str * str :=
  match unpack2 (split resp QUESTION 1) with
  | Returned (e_part, q_part) =>
      (strip (replace e_part EVALUATION []), strip q_part)
  | Raised _ => ([], resp)
  end.

(** [l[-k] = f(l[-k])] for [k >= 1]: [None] is Python's [IndexError]. *)
Fixpoint update_at {A} (i : nat) (f : A -> A) (l : list A) : list A :=
  match l, i with
  | [], _ => []
  | x :: t, O => f x :: t
  | x :: t, S j => x :: update_at j f t
  end.

Definition update_from_end {A} (k : nat) (f : A -> A) (l : list A)
    : option (list A) :=
  if (k <=? length l)%nat then Some (update_at (length l - k) f l) else None.

Definition set_eval (v : option str) (m : Turn) : Turn :=
  {| role := role m; content := content m; eval := v |}.

(** [st.session_state.history.append(m)] *)
Definition history_append (m : Turn) : M unit :=
  modify (fun s => set_history (history s ++ [m]) s).

Definition interviewer_system : Message :=
  {| m_role := py "system"; m_content := py "You are an interviewer." |}.

Definition greet_prompt (profile_md : option str) : str :=
  dedent (py "
            " ++ fmt profile_md ++ py "

            Start the mock interview with:
            • A brief professional greeting **using your own name** from the profile               (or invent one). **Do not write “[Interviewer’s Name]”.**
            • The first tailored question.
        ").

Definition follow_prompt (profile_md : option str) (convo : str) : str :=
  dedent (py "
            " ++ fmt profile_md ++ py "

            Continue the interview.

            Provide exactly two lines:
            EVALUATION: <brief feedback>
            QUESTION: <specific follow-up question>

            Conversation so far:
            " ++ convo ++ py "
        ").

Definition greet_messages (profile_md : option str) : list Message :=
  [ interviewer_system;
    {| m_role := py "user"; m_content := greet_prompt profile_md |} ].

(** [convo] of line 265, and the messages of line 279. *)
Definition conversation (h : list Turn) : str :=
  join newline
    (map (fun m => role_str (role m) ++ py ": " ++ content m) h).

Definition follow_messages (profile_md : option str) (h : list Turn)
    : list Message :=
  [ interviewer_system;
    {| m_role := py "user";
       m_content := follow_prompt profile_md (conversation h) |} ].

(** Lines 238-251: the greeting, when the history is empty. *)
Definition greeting_step : M unit :=
  s <- get ;;
  when (match history s with [] => true | _ :: _ => false end)
    (r <- groq_chat (greet_messages (profile_md s)) (5 # 10)%Q ;;
     greeting <- strip_result r ;;
     history_append {| role := interviewer; content := greeting; eval := None |}).

(** Lines 263-297: the body of [if (user_txt := st.chat_input(..))]. *)
Definition candidate_reply (user_txt : str) : M unit :=
  history_append {| role := candidate; content := user_txt; eval := None |} ;;
  s <- get ;;
  r <- groq_chat (follow_messages (profile_md s) (history s)) (5 # 10)%Q ;;
  resp <- strip_result r ;;
  let (eval_text, question) := parse_reply resp in
  s <- get ;;
  match update_from_end 2 (set_eval (Some eval_text)) (history s) with
  | Some h => modify (set_history h)
  | None => raise IndexError
  end ;;
  history_append {| role := interviewer; content := question; eval := None |}.

Definition report_prompt (profile_md : option str) (convo : str) : str :=
  dedent (py "
        Role: interview evaluator. Write a detailed markdown report         (summary, assessments, recommendations).

        Profile:
        " ++ fmt profile_md ++ py "

        Conversation:
        " ++ convo ++ py "
    ").

Definition generate_report : M (option str) :=
  s <- get ;;
  let convo :=
    join newline
      (map (fun m =>
              role_capitalized (role m) ++ py ": " ++ content m
              ++ (if truthy (eval m)
                  then py "  [Eval: " ++ fmt (eval m) ++ py "]"
                  else []))
           (history s)) in
  groq_chat [ {| m_role := py "system";
                 m_content := py "You are an expert interview evaluator" |};
              {| m_role := py "user";
                 m_content := report_prompt (profile_md s) convo |} ]
            (25 # 100)%Q.

(** Lines 300-302: the report button, drawn from four turns on. *)
Definition report_step (w : Widgets) : M unit :=
  s <- get ;;
  when ((4 <=? length (history s))%nat
        && button w (py "Generate interview report"))
    (r <- generate_report ;;
     modify (set_report_md r) ;;
     st_rerun).

Definition page_interview (w : Widgets) : M unit :=
  greeting_step ;;
  (let user_txt := chat_input w (py "Your answer…") in
   when (truthy user_txt)
     (candidate_reply (match user_txt with Some t => t | None => [] end))) ;;
  report_step w.

(** [router[st.session_state.page]()] *)
Definition router (w : Widgets) : M unit :=
  s <- get ;;
  match page s with
  | apikey => page_apikey w
  | landing => page_landing w
  | setup => page_setup w
  | profile => page_profile w
  | interview => page_interview w
  end.

End App.

(* ===================================================================== *)
(** ** Vocabulary of the properties *)
(* ===================================================================== *)

(** The request of every attempt of [groq_chat]. *)
Definition chat_request (cli : Groq) (msgs : list Message) (temperature : Q) : Request :=
  {| r_client := cli; r_model := MODEL_NAME; r_messages := msgs;
     r_temperature := Some temperature; r_max_tokens := None |}.

(** A state with more trace. *)
Definition logged (st : State) (evs : list Event) : State :=
  {| sess := sess st; trace := trace st ++ evs |}.

(** What the chat client never touches. *)
Definition same_interview (s s' : Session) : Prop :=
  history s' = history s /\ report_md s' = report_md s
  /\ profile_md s' = profile_md s.

Definition candidate_turn (user_txt : str) : Turn :=
  {| role := candidate; content := user_txt; eval := None |}.

Definition interviewer_turn (text : str) : Turn :=
  {| role := interviewer; content := text; eval := None |}.

(** The state once a turn is appended. *)
Definition appended (st : State) (m : Turn) : State :=
  {| sess := set_history (history (sess st) ++ [m]) (sess st);
     trace := trace st |}.

(** No proper, non-empty prefix of [label] is also a suffix of it: two
    occurrences of such a label never overlap. *)
Definition border_free (label : str) : bool :=
  negb (is_empty label)
  && forallb (fun k => negb (str_eqb (firstn k label)
                                     (skipn (length label - k) label)))
             (seq 1 (length label - 1)).

(** A text [a] in which the label neither occurs nor starts at the end:
    an occurrence in [a ++ b] is one in [b]. *)
Definition no_start (label a : str) : bool :=
  match find a label with
  | Some _ => false
  | None =>
      forallb (fun k => negb (startswith label (skipn k a)))
              (seq 0 (length a))
  end.


(** States reached from an empty history by interview actions that
    completed: greetings and submissions that returned. *)
Inductive reachable (endpoint : nat -> Request -> Response) : State -> Prop :=
| reach_start st :
    history (sess st) = [] -> reachable endpoint st
| reach_greeting st st' :
    reachable endpoint st ->
    greeting_step endpoint st = (Returned tt, st') ->
    reachable endpoint st'
| reach_reply st user_txt st' :
    reachable endpoint st ->
    candidate_reply endpoint user_txt st = (Returned tt, st') ->
    reachable endpoint st'.

(** Question, evaluation written on it, answer: one exchange as the
    history stores it. *)
Fixpoint exchanges (l : list (str * str * str)) : list Turn :=
  match l with
  | [] => []
  | (question, eval_text, answer) :: rest =>
      {| role := interviewer; content := question; eval := Some eval_text |}
      :: {| role := candidate; content := answer; eval := None |}
      :: exchanges rest
  end.


(** What the attempts of a range log when each of them fails with a
    transient status: a call, then the wait of the attempt. *)
Fixpoint rounds (req : Request) (range : list nat) : list Event :=
  match range with
  | [] => []
  | attempt :: rest =>
      Create req :: Sleep (2 ^ Z.of_nat attempt) :: rounds req rest
  end.

(** A computation keeps [I]: from a session where [I] holds it leaves one
    where [I] holds, whether it returns or raises. *)
Definition keeps {A} (I : Session -> Prop) (m : M A) : Prop :=
  forall st, I (sess st) -> I (sess (snd (m st))).

(** The pages a script run that starts on page [p] can leave in
    [st.session_state.page]. *)
Definition targets (p : Page) : list Page :=
  match p with
  | apikey => [apikey; landing]
  | landing => [landing; profile; setup; apikey]
  | setup => [setup; profile; apikey]
  | profile => [profile; interview; setup]
  | interview => [interview; apikey]
  end.

(** What a turn says and who says it: the turn without its evaluation. *)
Definition said (m : Turn) : Role * str := (role m, content m).

(** The first template whose button is clicked. *)
Fixpoint clicked_template (w : Widgets) (items : list (str * Form))
    : option (str * Form) :=
  match items with
  | [] => None
  | (name, tpl) :: rest =>
      if button w name then Some (name, tpl) else clicked_template w rest
  end.

(** The messages of [generate_profile]. *)
Definition profile_messages (form : Form) : list Message :=
  [ {| m_role := py "system";
       m_content := py "You are an expert interview assistant" |};
    {| m_role := py "user"; m_content := profile_prompt form |} ].

(* ===================================================================== *)
(** ** Concrete sessions, widgets and endpoints *)
(* ===================================================================== *)

Definition demo_client : Groq := {| groq_key := py "gsk_demo" |}.

(** A session on the interview page, its client already validated. *)
Definition demo_session (h : list Turn) : Session :=
  {| page := interview; api_key := py "gsk_demo"; client := Some demo_client;
     form := form (init_session None);
     profile_md := Some (py "Jordan Lee – Senior Product Manager");
     history := h; show_eval := true; report_md := Some [] |}.

Definition demo_state (h : list Turn) : State :=
  {| sess := demo_session h; trace := [] |}.

Definition demo_msgs : list Message :=
  [ {| m_role := py "user"; m_content := py "Hello" |} ].

(** Rate-limited twice, then an answer. *)
Definition endpoint_fails_twice : nat -> Request -> Response :=
  fun n _ =>
    match n with
    | 0 | 1 => Failure (GroqError 429 (py "rate limit"))
    | _ => Completion (py "Welcome")
    end.

(** The same status at every call. *)
Definition endpoint_fails_always (code : Z) : nat -> Request -> Response :=
  fun _ _ => Failure (GroqError code (py "error")).

(** An endpoint that answers every call with the two-line reply. *)
Definition endpoint_two_lines : nat -> Request -> Response :=
  fun _ _ => Completion (py "EVALUATION: Good clarity
QUESTION: Tell me about X").

Definition demo_greeting : Turn :=
  interviewer_turn (py "Hello, I am Jordan Lee. Why this role?").

Definition demo_answer : str := py "I stay calm under pressure".

(** Nothing clicked, nothing typed. *)
Definition idle : Widgets :=
  {| button := fun _ => false; text_input := fun _ => [];
     text_area := fun _ => []; selected := fun _ => 0;
     checkbox := fun _ => true; chat_input := fun _ => None |}.

(** [user_txt] submitted in the chat input. *)
Definition answering (user_txt : str) : Widgets :=
  {| button := fun _ => false; text_input := fun _ => [];
     text_area := fun _ => []; selected := fun _ => 0;
     checkbox := fun _ => true; chat_input := fun _ => Some user_txt |}.

(** An answer submitted after the greeting, to an endpoint that refuses
    the call with status 401. *)
Definition failed_submission : Outcome unit * State :=
  page_interview (endpoint_fails_always 401) (answering demo_answer)
    (demo_state [demo_greeting]).

(** A reply with a remark before the question and no [EVALUATION:]. *)
Definition remark_reply : str := py "Nice answer.
QUESTION: Why?".

(** The Product Manager template, the one with a Behavioral round. *)
Definition product_manager : Form :=
  {| company_name := py "FinTech Neo";
     job_title := py "Product Manager – Payments";
     company_desc := py "Digital bank building next-gen payments experience.";
     job_desc := py "Define roadmap, own KPIs, collaborate with design & engineering.";
     round := py "Behavioral";
     tech_stack := [];
     criteria := py "Stakeholder comms, metrics-driven decisions, user empathy." |}.

(** A session on the interview page with key [key] and no handle yet. *)
Definition unvalidated_state (key : str) (h : list Turn) : State :=
  {| sess := set_client None (set_api_key key (demo_session h)); trace := [] |}.

(** An endpoint whose calls break with an exception [e] of their own. *)
Definition endpoint_raises (e : exn) : nat -> Request -> Response :=
  fun _ _ => Failure e.

(** An endpoint that refuses the first call with status 401 and answers
    the later ones with the two-line reply. *)
Definition endpoint_refuses_once : nat -> Request -> Response :=
  fun n _ =>
    match n with
    | 0 => Failure (GroqError 401 (py "error"))
    | _ => Completion (py "EVALUATION: Good clarity
QUESTION: Tell me about X")
    end.

(** The report button clicked, nothing typed. *)
Definition asking_report : Widgets :=
  {| button := fun _ => true; text_input := fun _ => [];
     text_area := fun _ => []; selected := fun _ => 0;
     checkbox := fun _ => true; chat_input := fun _ => None |}.

(** The button labelled [label] clicked, nothing else. *)
Definition clicking (label : str) : Widgets :=
  {| button := fun l => str_eqb l label; text_input := fun _ => [];
     text_area := fun _ => []; selected := fun _ => 0;
     checkbox := fun _ => true; chat_input := fun _ => None |}.

(** A session on the landing page, and one on the profile page with an
    interview behind it, both with a validated client. *)
Definition demo_landing : State :=
  {| sess := set_page landing (demo_session []); trace := [] |}.

Definition demo_profile : State :=
  {| sess := set_page profile
               (set_report_md (Some (py "An old report"))
                  (demo_session [demo_greeting; candidate_turn demo_answer]));
     trace := [] |}.

(** An endpoint that answers every call at once, with spaces around. *)
Definition endpoint_welcomes : nat -> Request -> Response :=
  fun _ _ => Completion (py "  Welcome. ").

(* ===================================================================== *)
(** ** The string functions on examples *)
(* ===================================================================== *)

Example strip_example :
  strip (py "  Good clarity
") = py "Good clarity".
Proof. reflexivity. Qed.

Example split_example :
  split (py "a, b, c") (py ", ") 1 = [py "a"; py "b, c"].
Proof. reflexivity. Qed.

Example replace_example :
  replace (py "xEVALUATION:yEVALUATION:") (py "EVALUATION:") [] = py "xy".
Proof. reflexivity. Qed.

Example dedent_example :
  dedent (py "
      a
        b

      c
    ") = py "
a
  b

c
".
Proof. reflexivity. Qed.

Example py_example : py "“–" = [8220%N; 8211%N].
Proof. reflexivity. Qed.

(* ===================================================================== *)
(** ** Properties of the chat client *)
(* ===================================================================== *)

Lemma creates_app (a b : list Event) : creates (a ++ b) = creates a + creates b.
Proof.
  induction a as [|ev a IH]; simpl; [reflexivity|].
  destruct ev; simpl; rewrite IH; reflexivity.
Qed.

Lemma sleeps_app (a b : list Event) : sleeps (a ++ b) = sleeps a ++ sleeps b.
Proof.
  induction a as [|ev a IH]; simpl; [reflexivity|].
  destruct ev; simpl; rewrite IH; reflexivity.
Qed.

Lemma logged_logged st a b : logged (logged st a) b = logged st (a ++ b).
Proof. unfold logged; simpl. rewrite app_assoc. reflexivity. Qed.

Section ChatClient.

Variable endpoint : nat -> Request -> Response.
Variables (msgs : list Message) (temperature : Q).

Lemma groq_chat_with_client st cli st1 :
  get_client endpoint st = (Returned cli, st1) ->
  groq_chat endpoint msgs temperature st
  = attempts endpoint cli msgs temperature (seq 0 3) st1.
Proof.
  intros H. unfold groq_chat, bind. rewrite H. reflexivity.
Qed.

Lemma get_client_cached st cli :
  client (sess st) = Some cli ->
  get_client endpoint st = (Returned cli, st).
Proof.
  intros H. unfold get_client, bind, get. rewrite H. reflexivity.
Qed.

(** One attempt that succeeds. *)
Lemma attempts_success cli attempt rest st text :
  endpoint (creates (trace st)) (chat_request cli msgs temperature) = Completion text ->
  attempts endpoint cli msgs temperature (attempt :: rest) st
  = (Returned (Some text), logged st [Create (chat_request cli msgs temperature)]).
Proof.
  intros H. simpl. unfold try_except_GroqError, create.
  fold (chat_request cli msgs temperature). rewrite H. reflexivity.
Qed.

(** One attempt that fails with a transient status: wait, go on. *)
Lemma attempts_transient cli attempt rest st code message :
  endpoint (creates (trace st)) (chat_request cli msgs temperature)
  = Failure (GroqError code message) ->
  transient code = true ->
  attempts endpoint cli msgs temperature (attempt :: rest) st
  = attempts endpoint cli msgs temperature rest
      (logged st [Create (chat_request cli msgs temperature);
                  Sleep (2 ^ Z.of_nat attempt)]).
Proof.
  intros H Ht. simpl. unfold try_except_GroqError, create at 1.
  fold (chat_request cli msgs temperature). rewrite H, Ht.
  unfold bind, time_sleep, emit, logged; simpl.
  rewrite <- app_assoc. reflexivity.
Qed.

(** One attempt that fails with another status: the error is raised. *)
Lemma attempts_fatal cli attempt rest st code message :
  endpoint (creates (trace st)) (chat_request cli msgs temperature)
  = Failure (GroqError code message) ->
  transient code = false ->
  attempts endpoint cli msgs temperature (attempt :: rest) st
  = (Raised (GroqError code message),
     logged st [Create (chat_request cli msgs temperature)]).
Proof.
  intros H Ht. simpl. unfold try_except_GroqError, create.
  fold (chat_request cli msgs temperature). rewrite H, Ht. reflexivity.
Qed.

(** The loop makes at most one [create] call per element of its range,
    and leaves the session alone. *)
Lemma attempts_trace cli range st :
  exists evs,
    snd (attempts endpoint cli msgs temperature range st) = logged st evs
    /\ creates evs <= length range.
Proof.
  revert st. induction range as [|attempt rest IH]; intros st.
  - exists []. simpl. unfold logged. rewrite app_nil_r. destruct st; split; [reflexivity|lia].
  - simpl. unfold try_except_GroqError, create at 1.
    fold (chat_request cli msgs temperature).
    destruct (endpoint (creates (trace st)) (chat_request cli msgs temperature))
      as [text|e].
    + exists [Create (chat_request cli msgs temperature)].
      split; [reflexivity|simpl; lia].
    + destruct e as [code message| | | | | |];
        try (exists [Create (chat_request cli msgs temperature)];
             split; [reflexivity|simpl; lia]).
      destruct (transient code).
      * unfold bind at 1. unfold time_sleep, emit. simpl.
        match goal with |- context [attempts _ _ _ _ rest ?s] =>
          destruct (IH s) as (evs & Hs & Hle); rewrite Hs end.
        exists ([Create (chat_request cli msgs temperature);
                 Sleep (2 ^ Z.of_nat attempt)] ++ evs).
        split.
        -- unfold logged; simpl. rewrite <- !app_assoc. reflexivity.
        -- rewrite creates_app. simpl. lia.
      * exists [Create (chat_request cli msgs temperature)].
        split; [reflexivity|simpl; lia].
Qed.

End ChatClient.

(** Closes a goal on the endpoint's answer at a call index computed from
    a trace, by the hypothesis [H] on the same index in normal form. *)
Ltac call_index H :=
  unfold logged; simpl trace; rewrite ?creates_app; simpl creates;
  match goal with
  | |- ?f ?k ?r = _ =>
      match type of H with
      | f ?k' r = _ => replace k with k' by lia; exact H
      end
  end.

(** C3. [groq_chat] makes at most three [create] calls after the client
    is obtained; when the first two fail with a transient status (429, 500
    or 503) and the third succeeds, it returns the text of the third, and
    what it did is exactly: call, wait 1, call, wait 2, call. *)
Theorem groq_chat_three_attempts_backoff :
  forall endpoint msgs temperature st cli st1,
    get_client endpoint st = (Returned cli, st1) ->
    let req := chat_request cli msgs temperature in
    let n := creates (trace st1) in
    (exists evs,
        snd (groq_chat endpoint msgs temperature st) = logged st1 evs
        /\ creates evs <= 3)
    /\ (forall c0 m0 c1 m1 text,
          endpoint n req = Failure (GroqError c0 m0) -> transient c0 = true ->
          endpoint (S n) req = Failure (GroqError c1 m1) -> transient c1 = true ->
          endpoint (S (S n)) req = Completion text ->
          groq_chat endpoint msgs temperature st
          = (Returned (Some text),
             logged st1 [Create req; Sleep 1; Create req; Sleep 2; Create req])).
Proof.
  intros endpoint msgs temperature st cli st1 Hcli req n. subst req n.
  rewrite (groq_chat_with_client endpoint msgs temperature st cli st1 Hcli).
  split.
  - apply (attempts_trace endpoint msgs temperature cli (seq 0 3) st1).
  - intros c0 m0 c1 m1 text H0 T0 H1 T1 H2. simpl seq.
    rewrite (attempts_transient endpoint msgs temperature cli 0 _ st1 c0 m0 H0 T0).
    rewrite (attempts_transient endpoint msgs temperature cli 1 _ _ c1 m1);
      [ | call_index H1 | exact T1 ].
    rewrite (attempts_success endpoint msgs temperature cli 2 _ _ text).
    + rewrite !logged_logged. reflexivity.
    + call_index H2.
Qed.

(** C4. When the first attempt fails with a status other than 429, 500
    and 503, [groq_chat] raises that very error after that one call: no
    wait, no further attempt. *)
Theorem groq_chat_fatal_error_raised_at_once :
  forall endpoint msgs temperature st cli st1 code message,
    get_client endpoint st = (Returned cli, st1) ->
    endpoint (creates (trace st1)) (chat_request cli msgs temperature)
    = Failure (GroqError code message) ->
    code <> 429%Z -> code <> 500%Z -> code <> 503%Z ->
    groq_chat endpoint msgs temperature st
    = (Raised (GroqError code message),
       logged st1 [Create (chat_request cli msgs temperature)]).
Proof.
  intros endpoint msgs temperature st cli st1 code message Hcli H N1 N2 N3.
  rewrite (groq_chat_with_client endpoint msgs temperature st cli st1 Hcli). simpl seq.
  apply attempts_fatal; [exact H|].
  unfold transient.
  apply Z.eqb_neq in N1, N2, N3. rewrite N1, N2, N3. reflexivity.
Qed.

(** C2, as the code has it. When all three attempts fail with a transient
    status, [groq_chat] raises nothing: after the third wait the loop is
    over, the function falls off its end and returns [None]. *)
Theorem groq_chat_exhausted_returns_None :
  forall endpoint msgs temperature st cli st1 c0 m0 c1 m1 c2 m2,
    get_client endpoint st = (Returned cli, st1) ->
    let req := chat_request cli msgs temperature in
    let n := creates (trace st1) in
    endpoint n req = Failure (GroqError c0 m0) -> transient c0 = true ->
    endpoint (S n) req = Failure (GroqError c1 m1) -> transient c1 = true ->
    endpoint (S (S n)) req = Failure (GroqError c2 m2) -> transient c2 = true ->
    groq_chat endpoint msgs temperature st
    = (Returned None,
       logged st1 [Create req; Sleep 1; Create req; Sleep 2; Create req; Sleep 4]).
Proof.
  intros endpoint msgs temperature st cli st1 c0 m0 c1 m1 c2 m2 Hcli req n.
  subst req n. intros H0 T0 H1 T1 H2 T2.
  rewrite (groq_chat_with_client endpoint msgs temperature st cli st1 Hcli). simpl seq.
  rewrite (attempts_transient endpoint msgs temperature cli 0 _ st1 c0 m0 H0 T0).
  rewrite (attempts_transient endpoint msgs temperature cli 1 _ _ c1 m1);
    [ | call_index H1 | exact T1 ].
  rewrite (attempts_transient endpoint msgs temperature cli 2 _ _ c2 m2);
    [ | call_index H2 | exact T2 ].
  simpl attempts. unfold ret. rewrite !logged_logged. reflexivity.
Qed.

Lemma groq_chat_three_attempts_backoff_witness :
  get_client endpoint_fails_twice (demo_state [])
  = (Returned demo_client, demo_state [])
  /\ groq_chat endpoint_fails_twice demo_msgs (5 # 10)%Q (demo_state [])
     = (Returned (Some (py "Welcome")),
        logged (demo_state [])
          [Create (chat_request demo_client demo_msgs (5 # 10)%Q); Sleep 1;
           Create (chat_request demo_client demo_msgs (5 # 10)%Q); Sleep 2;
           Create (chat_request demo_client demo_msgs (5 # 10)%Q)]).
Proof.
  split; [reflexivity|].
  apply (proj2 (groq_chat_three_attempts_backoff endpoint_fails_twice demo_msgs
                  (5 # 10)%Q (demo_state []) demo_client (demo_state [])
                  eq_refl)
           429%Z (py "rate limit") 429%Z (py "rate limit") (py "Welcome"));
    reflexivity.
Defined.

Lemma groq_chat_fatal_error_raised_at_once_witness :
  get_client (endpoint_fails_always 400) (demo_state [])
  = (Returned demo_client, demo_state [])
  /\ groq_chat (endpoint_fails_always 400) demo_msgs (5 # 10)%Q (demo_state [])
     = (Raised (GroqError 400 (py "error")),
        logged (demo_state [])
          [Create (chat_request demo_client demo_msgs (5 # 10)%Q)]).
Proof.
  split; [reflexivity|].
  apply (groq_chat_fatal_error_raised_at_once (endpoint_fails_always 400)
           demo_msgs (5 # 10)%Q (demo_state []) demo_client (demo_state [])
           400%Z (py "error") eq_refl);
    [reflexivity | lia | lia | lia].
Defined.

(** What the callers make of it: the greeting of a run whose three calls
    are refused with 503 fails on [None.strip()]. *)
Example exhausted_greeting_raises_AttributeError :
  fst (page_interview (endpoint_fails_always 503) idle (demo_state []))
  = Raised AttributeError
  /\ sleeps (trace (snd (page_interview (endpoint_fails_always 503) idle
                           (demo_state []))))
     = [1; 2; 4]%Z.
Proof. split; reflexivity. Qed.

Lemma groq_chat_exhausted_returns_None_witness :
  get_client (endpoint_fails_always 503) (demo_state [])
  = (Returned demo_client, demo_state [])
  /\ groq_chat (endpoint_fails_always 503) demo_msgs (5 # 10)%Q (demo_state [])
     = (Returned None,
        logged (demo_state [])
          [Create (chat_request demo_client demo_msgs (5 # 10)%Q); Sleep 1;
           Create (chat_request demo_client demo_msgs (5 # 10)%Q); Sleep 2;
           Create (chat_request demo_client demo_msgs (5 # 10)%Q); Sleep 4]).
Proof.
  split; [reflexivity|].
  apply (groq_chat_exhausted_returns_None (endpoint_fails_always 503)
           demo_msgs (5 # 10)%Q (demo_state []) demo_client (demo_state [])
           503%Z (py "error") 503%Z (py "error") 503%Z (py "error") eq_refl);
    reflexivity.
Defined.

(* ===================================================================== *)
(** ** Properties of [find], [split] and [replace] *)
(* ===================================================================== *)

Section StrFacts.

Lemma startswith_true s p : startswith s p = true -> exists t, s = p ++ t.
Proof.
  revert s. induction p as [|c p IH]; intros s H.
  - exists s. reflexivity.
  - destruct s as [|d s]; simpl in H; [discriminate|].
    apply andb_true_iff in H. destruct H as [Hc Hp].
    apply N.eqb_eq in Hc. subst d.
    destruct (IH _ Hp) as [t ->]. exists t. reflexivity.
Qed.

Lemma startswith_app p t : startswith (p ++ t) p = true.
Proof.
  induction p as [|c p IH]; simpl; [reflexivity|].
  rewrite N.eqb_refl, IH. reflexivity.
Qed.

(** What [find] returns is an occurrence. *)
Lemma find_Some s sub i :
  find s sub = Some i ->
  s = firstn i s ++ sub ++ skipn (i + length sub) s /\ length (firstn i s) = i.
Proof.
  revert i. induction s as [|c s IH]; intros i H.
  - simpl in H. destruct (startswith [] sub) eqn:E; [|discriminate].
    injection H as <-. destruct (startswith_true _ _ E) as [t Ht].
    symmetry in Ht. apply app_eq_nil in Ht. destruct Ht as [-> ->].
    split; reflexivity.
  - simpl in H. destruct (startswith (c :: s) sub) eqn:E.
    + injection H as <-. destruct (startswith_true _ _ E) as [t Ht].
      split; [|reflexivity]. simpl firstn. simpl app at 1.
      rewrite Ht at 2. simpl. rewrite skipn_app, Nat.sub_diag, skipn_all.
      simpl. exact Ht.
    + destruct (find s sub) as [j|] eqn:F; [|discriminate].
      injection H as <-. destruct (IH j eq_refl) as [Hs Hl].
      split; simpl; [f_equal; exact Hs | f_equal; exact Hl].
Qed.

(** It is the leftmost one. *)
Lemma find_leftmost s sub i pre post :
  find s sub = Some i -> s = pre ++ sub ++ post -> i <= length pre.
Proof.
  revert i pre. induction s as [|c s IH]; intros i pre H Hs.
  - simpl in H. destruct (startswith [] sub); [|discriminate].
    injection H as <-. lia.
  - simpl in H. destruct (startswith (c :: s) sub) eqn:E.
    + injection H as <-. lia.
    + destruct (find s sub) as [j|] eqn:F; [|discriminate].
      injection H as <-. destruct pre as [|d pre].
      * simpl in Hs. rewrite Hs, startswith_app in E. discriminate.
      * simpl in Hs. injection Hs as _ Hs. simpl.
        apply le_n_S. apply (IH j pre eq_refl Hs).
Qed.

Lemma find_None s sub : find s sub = None -> ~ contains s sub.
Proof.
  induction s as [|c s IH]; intros H (pre & post & Hs).
  - simpl in H. destruct (startswith [] sub) eqn:E; [discriminate|].
    symmetry in Hs. apply app_eq_nil in Hs. destruct Hs as [_ Hs].
    apply app_eq_nil in Hs. destruct Hs as [-> _]. discriminate.
  - simpl in H. destruct (startswith (c :: s) sub) eqn:E; [discriminate|].
    destruct (find s sub) eqn:F; [discriminate|].
    destruct pre as [|d pre].
    + simpl in Hs. rewrite Hs, startswith_app in E. discriminate.
    + simpl in Hs. injection Hs as _ Hs.
      apply (IH eq_refl). exists pre, post. exact Hs.
Qed.

Lemma contains_find s sub : contains s sub -> exists i, find s sub = Some i.
Proof.
  intros H. destruct (find s sub) as [i|] eqn:F; [exists i; reflexivity|].
  exfalso. exact (find_None _ _ F H).
Qed.

Lemma find_contains s sub i : find s sub = Some i -> contains s sub.
Proof.
  intros H. destruct (find_Some _ _ _ H) as [Hs _].
  exists (firstn i s), (skipn (i + length sub) s). exact Hs.
Qed.

(** A part of [s] that holds [sub] makes [s] hold it. *)
Lemma contains_app_l s t sub : contains s sub -> contains (s ++ t) sub.
Proof.
  intros (pre & post & ->). exists pre, (post ++ t).
  rewrite <- !app_assoc. reflexivity.
Qed.

(** Without an occurrence nothing is cut, and nothing is replaced. *)
Lemma split_no_sep s sep maxsplit : find s sep = None -> split s sep maxsplit = [s].
Proof.
  intros H. destruct maxsplit; simpl; [reflexivity|]. rewrite H. reflexivity.
Qed.

Lemma replace_absent s old new : ~ contains s old -> replace s old new = s.
Proof.
  intros H. unfold replace, split_all. rewrite split_no_sep; [reflexivity|].
  destruct (find s old) as [i|] eqn:F; [|reflexivity].
  exfalso. exact (H (find_contains _ _ _ F)).
Qed.

End StrFacts.

(** The reply as [parse_reply] cuts it. *)
Lemma parse_reply_no_label resp :
  find resp QUESTION = None -> parse_reply resp = ([], resp).
Proof.
  intros H. unfold parse_reply. rewrite (split_no_sep _ _ 1 H). reflexivity.
Qed.

Lemma parse_reply_label resp i :
  find resp QUESTION = Some i ->
  parse_reply resp
  = (strip (replace (firstn i resp) EVALUATION []),
     strip (skipn (i + length QUESTION) resp)).
Proof.
  intros H. unfold parse_reply. simpl split. rewrite H. reflexivity.
Qed.

(** C5. The well-formed two-line reply is cut into its evaluation and its
    question; a reply without the label [QUESTION:] is the question, whole,
    with an empty evaluation. *)
Theorem parse_reply_labelled_and_degraded :
  parse_reply (py "EVALUATION: Good clarity
QUESTION: Tell me about X")
  = (py "Good clarity", py "Tell me about X")
  /\ (forall resp : str,
        ~ contains resp (py "QUESTION:") -> parse_reply resp = ([], resp)).
Proof.
  split; [reflexivity|].
  intros resp H. apply parse_reply_no_label.
  destruct (find resp QUESTION) as [i|] eqn:F; [|reflexivity].
  exfalso. exact (H (find_contains _ _ _ F)).
Qed.

Lemma parse_reply_labelled_and_degraded_witness :
  ~ contains (py "Just a question?") (py "QUESTION:")
  /\ parse_reply (py "Just a question?") = ([], py "Just a question?").
Proof.
  assert (H : ~ contains (py "Just a question?") (py "QUESTION:"))
    by (apply find_None; reflexivity).
  split; [exact H|].
  exact (proj2 parse_reply_labelled_and_degraded (py "Just a question?") H).
Defined.

(* ===================================================================== *)
(** ** What [replace] deletes *)
(* ===================================================================== *)

Section Replace.

Lemma str_eqb_refl a : str_eqb a a = true.
Proof. unfold str_eqb. destruct (list_eq_dec N.eq_dec a a); congruence. Qed.

Lemma join_cons sep p rest :
  rest <> [] -> join sep (p :: rest) = p ++ sep ++ join sep rest.
Proof. destruct rest; [congruence|reflexivity]. Qed.

Lemma split_not_nil s sep n : split s sep n <> [].
Proof.
  destruct n; simpl; [discriminate|].
  destruct (find s sep); discriminate.
Qed.

(** Joining the pieces with the separator gives the string back. *)
Lemma join_split s sep n : join sep (split s sep n) = s.
Proof.
  revert s. induction n as [|m IH]; intros s; simpl; [reflexivity|].
  destruct (find s sep) as [i|] eqn:F; [|reflexivity].
  rewrite join_cons by apply split_not_nil.
  rewrite IH. symmetry. exact (proj1 (find_Some _ _ _ F)).
Qed.

(** With cuts to spare, no piece holds the separator. *)
Lemma split_pieces_free s sep n :
  sep <> [] -> length s <= n ->
  Forall (fun p => ~ contains p sep) (split s sep n).
Proof.
  intros Hsep. revert s. induction n as [|m IH]; intros s Hn.
  - destruct s; [|simpl in Hn; lia]. constructor; [|constructor].
    intros (pre & post & H). symmetry in H.
    apply app_eq_nil in H. destruct H as [_ H].
    apply app_eq_nil in H. destruct H as [H _]. exact (Hsep H).
  - simpl. destruct (find s sep) as [i|] eqn:F.
    + destruct (find_Some _ _ _ F) as [Hs Hl]. constructor.
      * intros (pre & post & H).
        assert (Hle : i <= length pre).
        { apply (find_leftmost s sep i pre
                   (post ++ sep ++ skipn (i + length sep) s) F).
          rewrite Hs at 1. rewrite H. rewrite <- !app_assoc. reflexivity. }
        rewrite H in Hl. rewrite !length_app in Hl.
        destruct sep; [congruence|simpl in Hl; lia].
      * apply IH. rewrite length_skipn.
        destruct sep; [congruence|simpl; lia].
    + constructor; [|constructor]. exact (find_None _ _ F).
Qed.

Lemma join_nil_concat parts : join [] parts = concat parts.
Proof.
  induction parts as [|p rest IH]; [reflexivity|].
  destruct rest as [|q rest]; [simpl; rewrite app_nil_r; reflexivity|].
  rewrite join_cons by discriminate. rewrite IH. reflexivity.
Qed.

Lemma border_free_no_border label x z t :
  border_free label = true ->
  label = x ++ z -> x <> [] -> z <> [] -> label = z ++ t -> False.
Proof.
  unfold border_free. intros H Hx Nx Nz Hz.
  apply andb_true_iff in H. destruct H as [_ H].
  rewrite forallb_forall in H.
  assert (Hin : In (length z) (seq 1 (length label - 1))).
  { apply in_seq. rewrite Hx, length_app.
    destruct x; [congruence|]. destruct z; [congruence|]. simpl. lia. }
  specialize (H _ Hin).
  assert (E1 : firstn (length z) label = z).
  { rewrite Hz at 1. rewrite firstn_app, Nat.sub_diag, firstn_all.
    simpl. apply app_nil_r. }
  assert (E2 : skipn (length label - length z) label = z).
  { clear - Hx. subst label. rewrite length_app.
    replace (length x + length z - length z) with (length x) by lia.
    rewrite skipn_app, Nat.sub_diag, skipn_all. reflexivity. }
  rewrite E1, E2, str_eqb_refl in H. discriminate.
Qed.

(** A label that starts inside another one and ends after it. *)
Lemma border_clash label x z a b :
  border_free label = true ->
  label = x ++ z -> x <> [] -> z <> [] -> label ++ a = z ++ b -> False.
Proof.
  intros Hb Hx Nx Nz H.
  apply app_eq_app in H. destruct H as [l [[H1 H2]|[H1 H2]]].
  - exact (border_free_no_border label x z l Hb Hx Nx Nz H1).
  - apply (f_equal (@length N)) in H1. rewrite length_app in H1.
    rewrite Hx in H1. rewrite length_app in H1.
    destruct x; [congruence|simpl in H1; lia].
Qed.

(** In pieces free of a border-free label and joined by it, the label
    occurs at the joints and nowhere else. *)
Lemma occurrence_is_joint label pieces :
  border_free label = true ->
  Forall (fun p => ~ contains p label) pieces ->
  forall pre post,
    join label pieces = pre ++ label ++ post ->
    exists ps1 ps2,
      pieces = ps1 ++ ps2 /\ ps1 <> [] /\ ps2 <> []
      /\ pre = join label ps1 /\ post = join label ps2.
Proof.
  intros Hb. induction pieces as [|p rest IH]; intros Hfree pre post H.
  - exfalso. simpl in H. symmetry in H.
    apply app_eq_nil in H. destruct H as [_ H].
    apply app_eq_nil in H. destruct H as [H _]. subst label. discriminate.
  - inversion Hfree as [|p' rest' Hp Hrest]; subst.
    destruct rest as [|q r].
    + exfalso. apply Hp. exists pre, post. exact H.
    + rewrite join_cons in H by discriminate.
      assert (Joint : forall post', join label (q :: r) = post' ->
                exists ps1 ps2, p :: q :: r = ps1 ++ ps2 /\ ps1 <> [] /\ ps2 <> []
                  /\ p = join label ps1 /\ post' = join label ps2).
      { intros post' E. exists [p], (q :: r).
        repeat split; try discriminate. symmetry. exact E. }
      apply app_eq_app in H. destruct H as [l [[H1 H2]|[H1 H2]]].
      * (* the occurrence starts inside [p] *)
        destruct l as [|c l].
        { rewrite app_nil_r in H1. subst pre. simpl in H2.
          apply app_inv_head in H2. subst post. apply Joint. reflexivity. }
        exfalso. symmetry in H2.
        apply app_eq_app in H2. destruct H2 as [l2 [[H3 H4]|[H3 H4]]].
        -- apply Hp. exists pre, l2. rewrite H1, H3. reflexivity.
        -- destruct l2 as [|d l2].
           ++ apply Hp. exists pre, []. rewrite H1, H3, !app_nil_r. reflexivity.
           ++ exact (border_clash label (c :: l) (d :: l2) _ _ Hb H3
                       ltac:(discriminate) ltac:(discriminate) H4).
      * (* the occurrence starts after [p] *)
        destruct l as [|c l].
        { rewrite app_nil_r in H1. subst pre. simpl in H2.
          apply app_inv_head in H2. subst post. apply Joint. reflexivity. }
        apply app_eq_app in H2. destruct H2 as [l2 [[H3 H4]|[H3 H4]]].
        -- destruct l2 as [|d l2].
           ++ rewrite app_nil_r in H3.
              destruct (IH Hrest [] post) as (ps1 & ps2 & E & N1 & N2 & E1 & E2).
              { symmetry. exact H4. }
              exists (p :: ps1), ps2. repeat split; try assumption.
              ** simpl. rewrite E. reflexivity.
              ** discriminate.
              ** rewrite join_cons by assumption. rewrite <- E1, app_nil_r.
                 rewrite H1, H3. reflexivity.
           ++ exfalso.
              exact (border_clash label (c :: l) (d :: l2) _ _ Hb H3
                       ltac:(discriminate) ltac:(discriminate) H4).
        -- destruct (IH Hrest l2 post) as (ps1 & ps2 & E & N1 & N2 & E1 & E2).
           { exact H4. }
           exists (p :: ps1), ps2. repeat split; try assumption.
           ** simpl. rewrite E. reflexivity.
           ** discriminate.
           ** rewrite join_cons by assumption. rewrite <- E1.
              rewrite H1, H3. reflexivity.
Qed.

End Replace.

(** C9. In a reply that holds [QUESTION:], let [e_part] be the text before
    its first occurrence. Without [EVALUATION:] in the reply, the
    evaluation is [e_part] stripped, whatever it says (the empty string is
    only for a reply without [QUESTION:]). In general [e_part] is pieces
    joined by [EVALUATION:], every occurrence of [EVALUATION:] in [e_part] is
    one of the joints, and the evaluation is the pieces put together
    without the joints, stripped. *)
Theorem parse_reply_evaluation_text :
  forall resp : str,
    contains resp QUESTION ->
    exists e_part q_part,
      resp = e_part ++ QUESTION ++ q_part
      /\ (forall pre post,
            resp = pre ++ QUESTION ++ post -> length e_part <= length pre)
      /\ (~ contains resp EVALUATION -> fst (parse_reply resp) = strip e_part)
      /\ exists pieces,
           e_part = join EVALUATION pieces
           /\ Forall (fun p => ~ contains p EVALUATION) pieces
           /\ (forall pre post,
                 e_part = pre ++ EVALUATION ++ post ->
                 exists ps1 ps2,
                   pieces = ps1 ++ ps2 /\ ps1 <> [] /\ ps2 <> []
                   /\ pre = join EVALUATION ps1 /\ post = join EVALUATION ps2)
           /\ fst (parse_reply resp) = strip (concat pieces).
Proof.
  intros resp H. destruct (contains_find _ _ H) as [i F].
  destruct (find_Some _ _ _ F) as [Hs Hl].
  exists (firstn i resp), (skipn (i + length QUESTION) resp).
  rewrite (parse_reply_label resp i F). simpl fst.
  split; [exact Hs|]. split.
  { intros pre post E. rewrite Hl. exact (find_leftmost _ _ _ _ _ F E). }
  split.
  { intros N. rewrite replace_absent; [reflexivity|].
    intros C. apply N. rewrite Hs. apply contains_app_l. exact C. }
  assert (Hfree : Forall (fun p => ~ contains p EVALUATION)
                         (split_all (firstn i resp) EVALUATION)).
  { apply split_pieces_free; [discriminate|apply Nat.le_refl]. }
  exists (split_all (firstn i resp) EVALUATION).
  split; [symmetry; apply join_split|]. split; [exact Hfree|]. split.
  - intros pre post E.
    apply (occurrence_is_joint EVALUATION _ eq_refl Hfree).
    unfold split_all. rewrite join_split. exact E.
  - unfold replace. rewrite join_nil_concat. reflexivity.
Qed.

Lemma parse_reply_evaluation_text_witness :
  contains remark_reply QUESTION
  /\ exists e_part q_part,
       remark_reply = e_part ++ QUESTION ++ q_part
       /\ (forall pre post,
             remark_reply = pre ++ QUESTION ++ post -> length e_part <= length pre)
       /\ (~ contains remark_reply EVALUATION ->
           fst (parse_reply remark_reply) = strip e_part)
       /\ exists pieces,
            e_part = join EVALUATION pieces
            /\ Forall (fun p => ~ contains p EVALUATION) pieces
            /\ (forall pre post,
                  e_part = pre ++ EVALUATION ++ post ->
                  exists ps1 ps2,
                    pieces = ps1 ++ ps2 /\ ps1 <> [] /\ ps2 <> []
                    /\ pre = join EVALUATION ps1 /\ post = join EVALUATION ps2)
            /\ fst (parse_reply remark_reply) = strip (concat pieces).
Proof.
  assert (H : contains remark_reply QUESTION)
    by (apply (find_contains _ _ 13); reflexivity).
  split; [exact H|].
  exact (parse_reply_evaluation_text remark_reply H).
Defined.

Example parse_reply_remark :
  parse_reply remark_reply = (py "Nice answer.", py "Why?").
Proof. reflexivity. Qed.

(** The labels put together by a deletion are not deleted again. *)
Example parse_reply_label_rebuilt :
  parse_reply (py "EVALUEVALUATION:ATION: fine
QUESTION: Why?")
  = (py "EVALUATION: fine", py "Why?").
Proof. reflexivity. Qed.

(* ===================================================================== *)
(** ** The interview page *)
(* ===================================================================== *)

Section Interview.

Variable endpoint : nat -> Request -> Response.

Lemma get_client_keeps st :
  same_interview (sess st) (sess (snd (get_client endpoint st))).
Proof.
  unfold get_client, bind, get, same_interview.
  destruct (client (sess st)) as [cli|]; [simpl; auto|].
  destruct (is_empty (api_key (sess st))); simpl; [auto|].
  unfold try_except_GroqError, create.
  destruct (endpoint _ _) as [text|e]; simpl; [auto|].
  destruct e; simpl; auto.
Qed.

Lemma attempts_sess cli msgs temperature range st :
  sess (snd (attempts endpoint cli msgs temperature range st)) = sess st.
Proof.
  destruct (attempts_trace endpoint msgs temperature cli range st)
    as (evs & H & _).
  rewrite H. reflexivity.
Qed.

Lemma groq_chat_keeps msgs temperature st :
  same_interview (sess st) (sess (snd (groq_chat endpoint msgs temperature st))).
Proof.
  unfold groq_chat, bind.
  pose proof (get_client_keeps st) as K.
  destruct (get_client endpoint st) as [[cli|e] st1]; simpl in K.
  - rewrite attempts_sess. exact K.
  - exact K.
Qed.

(** With the client already validated, [groq_chat] leaves the whole
    session as it is. *)
Lemma groq_chat_cached msgs temperature st cli :
  client (sess st) = Some cli ->
  sess (snd (groq_chat endpoint msgs temperature st)) = sess st.
Proof.
  intros H.
  rewrite (groq_chat_with_client endpoint msgs temperature st cli st
             (get_client_cached endpoint st cli H)).
  apply attempts_sess.
Qed.

(** The run of [candidate_reply], by what [groq_chat] does once the
    candidate turn is in the history. *)
Lemma candidate_reply_run user_txt st :
  candidate_reply endpoint user_txt st
  = let st0 := appended st (candidate_turn user_txt) in
    match groq_chat endpoint
            (follow_messages (profile_md (sess st0)) (history (sess st0)))
            (5 # 10)%Q st0 with
    | (Returned (Some text), st1) =>
        let (eval_text, question) := parse_reply (strip text) in
        match update_from_end 2 (set_eval (Some eval_text))
                (history (sess st1)) with
        | Some h =>
            (Returned tt,
             {| sess := set_history (h ++ [interviewer_turn question]) (sess st1);
                trace := trace st1 |})
        | None => (Raised IndexError, st1)
        end
    | (Returned None, st1) => (Raised AttributeError, st1)
    | (Raised e, st1) => (Raised e, st1)
    end.
Proof.
  unfold candidate_reply, history_append, bind, modify, get. simpl.
  fold (candidate_turn user_txt). unfold appended.
  destruct (groq_chat endpoint _ _ _) as [[[text|]|e] st1]; simpl;
    try reflexivity.
  destruct (parse_reply (strip text)) as [eval_text question].
  destruct (update_from_end 2 _ _) as [h|]; reflexivity.
Qed.

(** The run of [greeting_step]. *)
Lemma greeting_step_run st :
  greeting_step endpoint st
  = match history (sess st) with
    | [] =>
        match groq_chat endpoint (greet_messages (profile_md (sess st)))
                (5 # 10)%Q st with
        | (Returned (Some text), st1) =>
            (Returned tt, appended st1 (interviewer_turn (strip text)))
        | (Returned None, st1) => (Raised AttributeError, st1)
        | (Raised e, st1) => (Raised e, st1)
        end
    | _ :: _ => (Returned tt, st)
    end.
Proof.
  unfold greeting_step, bind, get, when.
  destruct (history (sess st)); [|reflexivity].
  destruct (groq_chat endpoint _ _ _) as [[[text|]|e] st1]; reflexivity.
Qed.

End Interview.

Section InterviewFacts.

Variable endpoint : nat -> Request -> Response.

Lemma update_from_end_two {A} (f : A -> A) (h0 : list A) (a b : A) :
  update_from_end 2 f (h0 ++ [a; b]) = Some (h0 ++ [f a; b]).
Proof.
  unfold update_from_end. rewrite length_app. simpl length.
  replace (2 <=? length h0 + 2)%nat with true
    by (symmetry; apply Nat.leb_le; lia).
  replace (length h0 + 2 - 2) with (length h0) by lia.
  f_equal. induction h0 as [|x h0 IH]; simpl; [reflexivity|].
  rewrite IH. reflexivity.
Qed.

(** A submission that raises: the candidate turn is in the history, and
    that is all that happened to the interview. *)
Lemma candidate_reply_raised user_txt st e st' :
  candidate_reply endpoint user_txt st = (Raised e, st') ->
  same_interview (sess (appended st (candidate_turn user_txt))) (sess st')
  /\ (forall cli, client (sess st) = Some cli ->
        sess st' = sess (appended st (candidate_turn user_txt))).
Proof.
  rewrite candidate_reply_run. cbv zeta.
  set (st0 := appended st (candidate_turn user_txt)).
  set (msgs := follow_messages _ _).
  pose proof (groq_chat_keeps endpoint msgs (5 # 10)%Q st0) as K.
  pose proof (groq_chat_cached endpoint msgs (5 # 10)%Q st0) as C.
  destruct (groq_chat endpoint msgs (5 # 10)%Q st0) as [[[text|]|e1] st1];
    simpl in K, C.
  - destruct (parse_reply (strip text)) as [eval_text question].
    destruct (update_from_end 2 _ _); [discriminate|].
    intros H. injection H as _ <-. split; [exact K|exact C].
  - intros H. injection H as _ <-. split; [exact K|exact C].
  - intros H. injection H as _ <-. split; [exact K|exact C].
Qed.

(** A submission that returns: the evaluation went to the turn that was
    last before it, and two turns were appended. *)
Lemma candidate_reply_returned user_txt st st' :
  candidate_reply endpoint user_txt st = (Returned tt, st') ->
  exists h0 m eval_text question,
    history (sess st) = h0 ++ [m]
    /\ history (sess st')
       = h0 ++ [set_eval (Some eval_text) m; candidate_turn user_txt;
                interviewer_turn question]
    /\ report_md (sess st') = report_md (sess st)
    /\ profile_md (sess st') = profile_md (sess st).
Proof.
  rewrite candidate_reply_run. cbv zeta.
  set (st0 := appended st (candidate_turn user_txt)).
  set (msgs := follow_messages _ _).
  pose proof (groq_chat_keeps endpoint msgs (5 # 10)%Q st0) as K.
  destruct (groq_chat endpoint msgs (5 # 10)%Q st0) as [[[text|]|e1] st1];
    simpl in K; [|discriminate|discriminate].
  destruct K as (Kh & Kr & Kp). simpl in Kh, Kr, Kp.
  destruct (parse_reply (strip text)) as [eval_text question].
  rewrite Kh.
  destruct (history (sess st)) as [|x h] eqn:E.
  - simpl. discriminate.
  - destruct (exists_last (l := x :: h)) as (h0 & m & E0); [discriminate|].
    rewrite E0, <- app_assoc. simpl app at 2.
    rewrite update_from_end_two.
    intros H. injection H as <-. simpl.
    exists h0, m, eval_text, question.
    repeat split; try assumption.
    rewrite <- app_assoc. reflexivity.
Qed.

(** The report button leaves the history alone. *)
Lemma report_step_keeps_history w st :
  history (sess (snd (report_step endpoint w st))) = history (sess st).
Proof.
  unfold report_step, bind, get, when.
  destruct ((4 <=? length (history (sess st)))%nat && button w _);
    [|reflexivity].
  unfold generate_report, bind, get.
  match goal with |- context [groq_chat endpoint ?m ?t st] =>
    pose proof (groq_chat_keeps endpoint m t st) as K;
    destruct (groq_chat endpoint m t st) as [[r|e] st1] end;
    simpl in *; apply K.
Qed.

(** The run of [page_interview], step by step. *)
Lemma page_interview_run w st :
  page_interview endpoint w st
  = match greeting_step endpoint st with
    | (Returned _, st2) =>
        if truthy (chat_input w (py "Your answer…"))
        then match candidate_reply endpoint
                     match chat_input w (py "Your answer…") with
                     | Some t => t
                     | None => []
                     end st2 with
             | (Returned _, st3) => report_step endpoint w st3
             | (Raised e, st3) => (Raised e, st3)
             end
        else report_step endpoint w st2
    | (Raised e, st2) => (Raised e, st2)
    end.
Proof.
  unfold page_interview, bind, when.
  destruct (greeting_step endpoint st) as [[[]|e] st2]; [|reflexivity].
  destruct (truthy (chat_input w _)); reflexivity.
Qed.

End InterviewFacts.

(** C1, as the code has it. A submission that raises has appended the
    candidate turn, with no evaluation, before the chat call: the history
    is the one before plus that turn, the report text and the profile are
    as before, and with a validated client the whole session is the one
    before plus that turn (no interviewer turn, no evaluation, same
    stage). *)
Theorem failed_reply_keeps_candidate_turn :
  forall endpoint user_txt st e st',
    candidate_reply endpoint user_txt st = (Raised e, st') ->
    history (sess st') = history (sess st) ++ [candidate_turn user_txt]
    /\ report_md (sess st') = report_md (sess st)
    /\ profile_md (sess st') = profile_md (sess st)
    /\ (forall cli, client (sess st) = Some cli ->
          sess st'
          = set_history (history (sess st) ++ [candidate_turn user_txt]) (sess st)).
Proof.
  intros endpoint user_txt st e st' H.
  destruct (candidate_reply_raised endpoint user_txt st e st' H)
    as ((Kh & Kr & Kp) & C).
  repeat split; assumption.
Qed.

Lemma failed_reply_keeps_candidate_turn_witness :
  candidate_reply (endpoint_fails_always 401) demo_answer (demo_state [demo_greeting])
  = (Raised (GroqError 401 (py "error")),
     snd (candidate_reply (endpoint_fails_always 401) demo_answer
            (demo_state [demo_greeting])))
  /\ history (sess (snd (candidate_reply (endpoint_fails_always 401) demo_answer
                           (demo_state [demo_greeting]))))
     = [demo_greeting; candidate_turn demo_answer].
Proof.
  split; [reflexivity|].
  exact (proj1 (failed_reply_keeps_candidate_turn (endpoint_fails_always 401)
                  demo_answer (demo_state [demo_greeting]) _ _ eq_refl)).
Defined.

(** C1 as stated fails: the chat call of a submission raises, and the
    session is not what it was before the submission. *)
Lemma failed_submission_changes_session :
  fst failed_submission = Raised (GroqError 401 (py "error"))
  /\ history (sess (snd failed_submission))
     = [demo_greeting; candidate_turn demo_answer]
  /\ sess (snd failed_submission) <> sess (demo_state [demo_greeting]).
Proof.
  split; [reflexivity|]. split; [reflexivity|].
  intros H. apply (f_equal history) in H. discriminate H.
Qed.

(** C7, as the code has it. When a submission returns, the evaluation is
    written on the turn that was last before the submission (the
    interviewer's question), and the candidate turn, appended with no
    evaluation, still has none. *)
Theorem reply_evaluation_goes_to_previous_turn :
  forall endpoint user_txt st st',
    candidate_reply endpoint user_txt st = (Returned tt, st') ->
    exists h0 m eval_text question,
      history (sess st) = h0 ++ [m]
      /\ history (sess st')
         = h0 ++ [ {| role := role m; content := content m;
                      eval := Some eval_text |};
                   {| role := candidate; content := user_txt; eval := None |};
                   {| role := interviewer; content := question; eval := None |} ].
Proof.
  intros endpoint user_txt st st' H.
  destruct (candidate_reply_returned endpoint user_txt st st' H)
    as (h0 & m & eval_text & question & E & E' & _).
  exists h0, m, eval_text, question. split; assumption.
Qed.

Lemma reply_evaluation_goes_to_previous_turn_witness :
  candidate_reply endpoint_two_lines demo_answer (demo_state [demo_greeting])
  = (Returned tt,
     snd (candidate_reply endpoint_two_lines demo_answer
            (demo_state [demo_greeting])))
  /\ exists h0 m eval_text question,
       history (sess (demo_state [demo_greeting])) = h0 ++ [m]
       /\ history (sess (snd (candidate_reply endpoint_two_lines demo_answer
                                (demo_state [demo_greeting]))))
          = h0 ++ [ {| role := role m; content := content m;
                       eval := Some eval_text |};
                    {| role := candidate; content := demo_answer; eval := None |};
                    {| role := interviewer; content := question; eval := None |} ].
Proof.
  split; [reflexivity|].
  exact (reply_evaluation_goes_to_previous_turn endpoint_two_lines
           demo_answer (demo_state [demo_greeting]) _ eq_refl).
Defined.

(** The end-to-end run: after the greeting and one answer, the evaluation
    sits on the greeting and the answer has none. *)
Example reply_evaluates_the_greeting :
  history (sess (snd (page_interview endpoint_two_lines (answering demo_answer)
                        (demo_state [demo_greeting]))))
  = [ {| role := interviewer;
         content := py "Hello, I am Jordan Lee. Why this role?";
         eval := Some (py "Good clarity") |};
      {| role := candidate; content := demo_answer; eval := None |};
      {| role := interviewer; content := py "Tell me about X";
         eval := None |} ].
Proof. reflexivity. Qed.

(** *** The histories of completed actions *)

Lemma exchanges_app l1 l2 : exchanges (l1 ++ l2) = exchanges l1 ++ exchanges l2.
Proof.
  induction l1 as [|[[q e] a] l1 IH]; simpl; [reflexivity|].
  rewrite IH. reflexivity.
Qed.

(** C10, as the code has it. A history reached by completed actions is
    empty, or it is exchanges followed by one open question: it starts with
    an interviewer turn, the roles alternate, the last turn is an
    interviewer turn without evaluation; every candidate turn has
    evaluation [None], and every interviewer turn but the last carries the
    evaluation of the answer that follows it. *)
Theorem reachable_history_shape :
  forall endpoint st,
    reachable endpoint st ->
    history (sess st) = []
    \/ exists l question,
         history (sess st)
         = exchanges l
           ++ [ {| role := interviewer; content := question; eval := None |} ].
Proof.
  intros endpoint st R. induction R as [st H|st st' R IH G|st user_txt st' R IH C].
  - left. exact H.
  - rewrite greeting_step_run in G.
    destruct (history (sess st)) as [|x h] eqn:E.
    + pose proof (groq_chat_keeps endpoint (greet_messages (profile_md (sess st)))
                    (5 # 10)%Q st) as K.
      destruct (groq_chat endpoint _ _ st) as [[[text|]|e] st1];
        try discriminate.
      injection G as <-. destruct K as (Kh & _). simpl in Kh.
      right. exists [], (strip text). simpl. rewrite Kh, E. reflexivity.
    + injection G as <-. rewrite E. exact IH.
  - destruct (candidate_reply_returned endpoint user_txt st st' C)
      as (h0 & m & eval_text & question & E & E' & _).
    right. destruct IH as [IH|(l & q & IH)].
    + rewrite IH in E. destruct h0; discriminate.
    + rewrite IH in E. apply app_inj_tail in E. destruct E as [<- <-].
      exists (l ++ [(q, eval_text, user_txt)]), question.
      rewrite E', exchanges_app, <- app_assoc. reflexivity.
Qed.

Lemma reachable_history_shape_witness :
  reachable endpoint_two_lines
    (snd (candidate_reply endpoint_two_lines demo_answer
            (snd (greeting_step endpoint_two_lines (demo_state [])))))
  /\ (history (sess (snd (candidate_reply endpoint_two_lines demo_answer
                            (snd (greeting_step endpoint_two_lines (demo_state []))))))
      = []
      \/ exists l question,
           history (sess (snd (candidate_reply endpoint_two_lines demo_answer
                                 (snd (greeting_step endpoint_two_lines (demo_state []))))))
           = exchanges l
             ++ [ {| role := interviewer; content := question; eval := None |} ]).
Proof.
  assert (R : reachable endpoint_two_lines
                (snd (candidate_reply endpoint_two_lines demo_answer
                        (snd (greeting_step endpoint_two_lines (demo_state [])))))).
  { apply (reach_reply endpoint_two_lines
             (snd (greeting_step endpoint_two_lines (demo_state [])))
             demo_answer).
    - apply (reach_greeting endpoint_two_lines (demo_state [])).
      + apply reach_start. reflexivity.
      + reflexivity.
    - reflexivity. }
  split; [exact R|].
  exact (reachable_history_shape endpoint_two_lines _ R).
Defined.

(** After the greeting and one answer that went through, the first
    interviewer turn has an evaluation. *)
Example reachable_interviewer_turn_evaluated :
  history (sess (snd (candidate_reply endpoint_two_lines demo_answer
                        (snd (greeting_step endpoint_two_lines (demo_state []))))))
  = exchanges [ (py "EVALUATION: Good clarity
QUESTION: Tell me about X", py "Good clarity", demo_answer) ]
    ++ [ interviewer_turn (py "Tell me about X") ].
Proof. reflexivity. Qed.

(** C8. A run of the interview page that starts with an empty history
    asks for the greeting, with the profile as its prompt, before anything
    else, and what it does is decided by that call. When the call returns
    a text, the greeting step appends exactly one interviewer turn, the
    text stripped, with no evaluation: the history is that turn alone, and
    in the history of the whole run it comes first, followed at most by
    the candidate turn and the follow-up question. When the call returns
    [None] or raises, the run raises at once with the history still empty:
    no candidate turn was appended. With a non-empty history the greeting
    step does nothing and calls nothing. *)
Theorem greeting_before_any_candidate_turn :
  forall endpoint w st,
    (history (sess st) = [] ->
     match groq_chat endpoint (greet_messages (profile_md (sess st)))
             (5 # 10)%Q st with
     | (Returned (Some text), st1) =>
         greeting_step endpoint st
         = (Returned tt, appended st1 (interviewer_turn (strip text)))
         /\ history (sess (appended st1 (interviewer_turn (strip text))))
            = [ {| role := interviewer; content := strip text; eval := None |} ]
         /\ exists g rest,
              history (sess (snd (page_interview endpoint w st))) = g :: rest
              /\ role g = interviewer /\ content g = strip text
              /\ (rest = []
                  \/ exists user_txt rest',
                       rest = candidate_turn user_txt :: rest'
                       /\ (rest' = [] \/ exists q, rest' = [interviewer_turn q]))
     | (Returned None, st1) =>
         page_interview endpoint w st = (Raised AttributeError, st1)
         /\ history (sess st1) = []
     | (Raised e, st1) =>
         page_interview endpoint w st = (Raised e, st1)
         /\ history (sess st1) = []
     end)
    /\ (history (sess st) <> [] -> greeting_step endpoint st = (Returned tt, st)).
Proof.
  intros endpoint w st. split.
  - intros H.
    pose proof (groq_chat_keeps endpoint (greet_messages (profile_md (sess st)))
                  (5 # 10)%Q st) as K.
    destruct (groq_chat endpoint (greet_messages (profile_md (sess st)))
                (5 # 10)%Q st) as [[[text|]|e] st1] eqn:G;
      destruct K as (Kh & _); simpl in Kh; rewrite H in Kh.
    + set (st2 := appended st1 (interviewer_turn (strip text))).
      assert (H2 : history (sess st2) = [interviewer_turn (strip text)])
        by (simpl; rewrite Kh; reflexivity).
      assert (G2 : greeting_step endpoint st = (Returned tt, st2))
        by (rewrite greeting_step_run, H, G; reflexivity).
      split; [exact G2|]. split; [exact H2|].
      rewrite page_interview_run, G2.
      destruct (truthy (chat_input w _)).
      * match goal with |- context [candidate_reply endpoint ?t st2] =>
          set (user_txt := t) end.
        destruct (candidate_reply endpoint user_txt st2) as [[[]|e] st3] eqn:C.
        -- destruct (candidate_reply_returned endpoint _ st2 st3 C)
             as (h0 & m & eval_text & question & E & E' & _).
           rewrite H2 in E. destruct h0 as [|x h0];
             [|destruct h0; discriminate].
           injection E as <-. rewrite report_step_keeps_history, E'.
           eexists _, _. split; [reflexivity|].
           split; [reflexivity|]. split; [reflexivity|].
           right. eexists _, _. split; [reflexivity|].
           right. eexists. reflexivity.
        -- destruct (candidate_reply_raised endpoint _ st2 e st3 C)
             as ((Kh3 & _) & _).
           simpl snd. rewrite Kh3. simpl. rewrite Kh. simpl.
           eexists _, _. split; [reflexivity|].
           split; [reflexivity|]. split; [reflexivity|].
           right. eexists _, _. split; [reflexivity|]. left. reflexivity.
      * rewrite report_step_keeps_history, H2.
        eexists _, _. split; [reflexivity|].
        split; [reflexivity|]. split; [reflexivity|]. left. reflexivity.
    + rewrite page_interview_run, greeting_step_run, H, G.
      split; [reflexivity|exact Kh].
    + rewrite page_interview_run, greeting_step_run, H, G.
      split; [reflexivity|exact Kh].
  - intros H. rewrite greeting_step_run.
    destruct (history (sess st)); [congruence|reflexivity].
Qed.

Lemma greeting_before_any_candidate_turn_witness :
  history (sess (demo_state [])) = []
  /\ match groq_chat endpoint_fails_twice
             (greet_messages (profile_md (sess (demo_state []))))
             (5 # 10)%Q (demo_state []) with
     | (Returned (Some text), st1) =>
         greeting_step endpoint_fails_twice (demo_state [])
         = (Returned tt, appended st1 (interviewer_turn (strip text)))
         /\ history (sess (appended st1 (interviewer_turn (strip text))))
            = [ {| role := interviewer; content := strip text; eval := None |} ]
         /\ exists g rest,
              history (sess (snd (page_interview endpoint_fails_twice idle
                                    (demo_state [])))) = g :: rest
              /\ role g = interviewer /\ content g = strip text
              /\ (rest = []
                  \/ exists user_txt rest',
                       rest = candidate_turn user_txt :: rest'
                       /\ (rest' = [] \/ exists q, rest' = [interviewer_turn q]))
     | (Returned None, st1) =>
         page_interview endpoint_fails_twice idle (demo_state [])
         = (Raised AttributeError, st1)
         /\ history (sess st1) = []
     | (Raised e, st1) =>
         page_interview endpoint_fails_twice idle (demo_state [])
         = (Raised e, st1)
         /\ history (sess st1) = []
     end.
Proof.
  split; [reflexivity|].
  exact (proj1 (greeting_before_any_candidate_turn endpoint_fails_twice idle
                  (demo_state [])) eq_refl).
Defined.

(** The greeting of a run whose first two calls are rate-limited. *)
Example greeting_after_retries :
  page_interview endpoint_fails_twice idle (demo_state [])
  = (Returned tt,
     {| sess := demo_session [interviewer_turn (py "Welcome")];
        trace := [ Create (chat_request demo_client
                             (greet_messages (profile_md (demo_session [])))
                             (5 # 10)%Q); Sleep 1;
                   Create (chat_request demo_client
                             (greet_messages (profile_md (demo_session [])))
                             (5 # 10)%Q); Sleep 2;
                   Create (chat_request demo_client
                             (greet_messages (profile_md (demo_session [])))
                             (5 # 10)%Q) ] |}).
Proof. reflexivity. Qed.

(* ===================================================================== *)
(** ** The profile prompt *)
(* ===================================================================== *)

Section Occurrences.

Variable label : str.



(** A label without newline does not occur across a newline. *)
Lemma contains_across_newline a b :
  ~ In 10%N label ->
  contains (a ++ newline ++ b) label -> contains a label \/ contains b label.
Proof.
  intros Hnl (pre & post & H).
  apply app_eq_app in H. destruct H as [l [[H1 H2]|[H1 H2]]].
  - (* the occurrence starts in [a] *)
    symmetry in H2. apply app_eq_app in H2.
    destruct H2 as [l2 [[H3 H4]|[H3 H4]]].
    + left. exists pre, l2. rewrite H1, H3. reflexivity.
    + destruct l2 as [|c l2].
      * left. exists pre, []. rewrite H1, H3, !app_nil_r. reflexivity.
      * exfalso. apply Hnl. unfold newline in H4. simpl in H4.
        injection H4 as <- _. rewrite H3. apply in_or_app. right. left.
        reflexivity.
  - (* the occurrence starts after [a] *)
    destruct l as [|c l].
    + simpl in H2. destruct label as [|d lab].
      * left. exists a, []. rewrite app_nil_r. reflexivity.
      * exfalso. apply Hnl. unfold newline in H2. simpl in H2.
        injection H2 as <- _. left. reflexivity.
    + right. unfold newline in H2. simpl in H2. injection H2 as _ H2.
      exists l, post. exact H2.
Qed.

Lemma contains_after a b :
  no_start label a = true -> contains (a ++ b) label -> contains b label.
Proof.
  unfold no_start. destruct (find a label) eqn:F; [discriminate|].
  intros Hs (pre & post & H). rewrite forallb_forall in Hs.
  apply app_eq_app in H. destruct H as [l [[H1 H2]|[H1 H2]]].
  - destruct l as [|c l].
    + simpl in H2. exists [], post. symmetry. exact H2.
    + exfalso. symmetry in H2. apply app_eq_app in H2.
      destruct H2 as [l2 [[H3 H4]|[H3 H4]]].
      * apply (find_None _ _ F). exists pre, l2. rewrite H1, H3. reflexivity.
      * assert (Hin : In (length pre) (seq 0 (length a))).
        { apply in_seq. rewrite H1, length_app. simpl. lia. }
        specialize (Hs _ Hin). rewrite H1 in Hs.
        rewrite skipn_app, Nat.sub_diag, skipn_all in Hs. simpl app in Hs.
        rewrite H3, startswith_app in Hs. discriminate.
  - exists l, post. exact H2.
Qed.





End Occurrences.

Section ProfilePrompt.


Lemma not_contains_nil label : label <> [] -> ~ contains [] label.
Proof.
  intros Hne (pre & post & E). symmetry in E.
  apply app_eq_nil in E. destruct E as [_ E].
  apply app_eq_nil in E. destruct E as [E _]. exact (Hne E).
Qed.


Lemma str_eqb_true a b : str_eqb a b = true -> a = b.
Proof.
  unfold str_eqb. destruct (list_eq_dec N.eq_dec a b); [auto|discriminate].
Qed.



End ProfilePrompt.



(** The setup page with a Behavioral round selected and a tech stack
    typed in earlier: the form is written without it. *)
Example fill_form_drops_tech_stack :
  let w := {| button := fun _ => false; text_input := fun _ => py "Rust, Go";
              text_area := fun _ => py "text"; selected := fun _ => 1;
              checkbox := fun _ => true; chat_input := fun _ => None |} in
  let st' := snd (fill_form w (demo_state [])) in
  round (form (sess st')) = py "Behavioral"
  /\ tech_stack (form (sess st')) = []
  /\ tech_block (form (sess st')) = [].
Proof. cbv zeta. repeat split; reflexivity. Qed.

(** [generate_profile] alone looks at the tech stack, not at the round. *)
Example tech_block_ignores_round :
  tech_block {| company_name := []; job_title := []; company_desc := [];
                job_desc := []; round := py "Behavioral";
                tech_stack := py "Rust"; criteria := [] |}
  = py "Tech Stack: Rust
".
Proof. reflexivity. Qed.

(* ===================================================================== *)
(** ** The client handle *)
(* ===================================================================== *)

Section ClientHandle.

Variable endpoint : nat -> Request -> Response.

(** A handle that [get_client] returns is the cached one from then on. *)
Lemma get_client_returned st cli st1 :
  get_client endpoint st = (Returned cli, st1) ->
  client (sess st1) = Some cli.
Proof.
  unfold get_client, bind, get.
  destruct (client (sess st)) as [c|] eqn:E.
  - intros H. injection H as <- <-. exact E.
  - destruct (is_empty (api_key (sess st))); simpl; [discriminate|].
    unfold try_except_GroqError, create.
    destruct (endpoint _ _) as [text|e]; simpl.
    + intros H. injection H as <- <-. reflexivity.
    + destruct e; discriminate.
Qed.

End ClientHandle.

(** X1. The handle is validated once: after [get_client] has returned a
    handle, asking again returns the same handle with no call, no notice
    and no change of the session. *)
Theorem get_client_validates_once :
  forall endpoint st cli st1,
    get_client endpoint st = (Returned cli, st1) ->
    get_client endpoint st1 = (Returned cli, st1).
Proof.
  intros endpoint st cli st1 H.
  apply get_client_cached. exact (get_client_returned endpoint st cli st1 H).
Qed.

(** X2. Without a handle and without a key nothing is sent: [groq_chat]
    puts the session on the key page and reruns the script. *)
Theorem groq_chat_without_key :
  forall endpoint msgs temperature st,
    client (sess st) = None ->
    api_key (sess st) = [] ->
    groq_chat endpoint msgs temperature st
    = (Raised RerunException,
       {| sess := set_page apikey (sess st); trace := trace st |}).
Proof.
  intros endpoint msgs temperature st Hc Hk.
  unfold groq_chat, get_client, bind, get. rewrite Hc, Hk. reflexivity.
Qed.

(** X3. A key that the endpoint refuses at validation, with whatever
    status, stops the script after one call: the error is shown as a
    notice, not raised, nothing is retried, and no handle is cached. *)
Theorem groq_chat_key_refused :
  forall endpoint msgs temperature st code message,
    client (sess st) = None ->
    api_key (sess st) <> [] ->
    endpoint (creates (trace st)) (ping {| groq_key := api_key (sess st) |})
    = Failure (GroqError code message) ->
    groq_chat endpoint msgs temperature st
    = (Raised StopException,
       logged st [ Create (ping {| groq_key := api_key (sess st) |});
                   StError (py "API key error: " ++ message) ]).
Proof.
  intros endpoint msgs temperature st code message Hc Hk He.
  unfold groq_chat, get_client, bind, get. rewrite Hc.
  destruct (api_key (sess st)) as [|c k] eqn:K; [congruence|].
  simpl is_empty. cbn iota. unfold when, ret at 1.
  unfold try_except_GroqError, create. rewrite He.
  unfold bind, st_error, emit, st_stop, raise, logged. simpl.
  rewrite <- app_assoc. reflexivity.
Qed.

Lemma get_client_validates_once_witness :
  get_client endpoint_two_lines (unvalidated_state (py "gsk_demo") [])
  = (Returned demo_client,
     snd (get_client endpoint_two_lines (unvalidated_state (py "gsk_demo") [])))
  /\ get_client endpoint_two_lines
       (snd (get_client endpoint_two_lines (unvalidated_state (py "gsk_demo") [])))
     = (Returned demo_client,
        snd (get_client endpoint_two_lines (unvalidated_state (py "gsk_demo") []))).
Proof.
  split; [reflexivity|].
  exact (get_client_validates_once endpoint_two_lines
           (unvalidated_state (py "gsk_demo") []) demo_client _ eq_refl).
Defined.

Lemma groq_chat_without_key_witness :
  client (sess (unvalidated_state [] [])) = None
  /\ api_key (sess (unvalidated_state [] [])) = []
  /\ groq_chat endpoint_two_lines demo_msgs (5 # 10)%Q (unvalidated_state [] [])
     = (Raised RerunException,
        {| sess := set_page apikey (sess (unvalidated_state [] []));
           trace := trace (unvalidated_state [] []) |}).
Proof.
  split; [reflexivity|]. split; [reflexivity|].
  exact (groq_chat_without_key endpoint_two_lines demo_msgs (5 # 10)%Q
           (unvalidated_state [] []) eq_refl eq_refl).
Defined.

Lemma groq_chat_key_refused_witness :
  client (sess (unvalidated_state (py "bad") [])) = None
  /\ api_key (sess (unvalidated_state (py "bad") [])) <> []
  /\ groq_chat (endpoint_fails_always 429) demo_msgs (5 # 10)%Q
       (unvalidated_state (py "bad") [])
     = (Raised StopException,
        logged (unvalidated_state (py "bad") [])
          [ Create (ping {| groq_key := api_key (sess (unvalidated_state (py "bad") [])) |});
            StError (py "API key error: " ++ py "error") ]).
Proof.
  assert (K : api_key (sess (unvalidated_state (py "bad") [])) <> [])
    by discriminate.
  split; [reflexivity|]. split; [exact K|].
  exact (groq_chat_key_refused (endpoint_fails_always 429) demo_msgs (5 # 10)%Q
           (unvalidated_state (py "bad") []) 429%Z (py "error")
           eq_refl K eq_refl).
Defined.

(* ===================================================================== *)
(** ** The retry loop on every endpoint *)
(* ===================================================================== *)

Section RetryLoop.

Variable endpoint : nat -> Request -> Response.
Variables (msgs : list Message) (temperature : Q).

(** What the loop logs, in order: the rounds of all its attempts, or the
    rounds of the first [j] of them and one more call, the one that
    returned or raised. *)
Lemma attempts_events cli range st :
  exists evs,
    snd (attempts endpoint cli msgs temperature range st) = logged st evs
    /\ (evs = rounds (chat_request cli msgs temperature) range
        \/ exists j,
             j < length range
             /\ evs = rounds (chat_request cli msgs temperature) (firstn j range)
                      ++ [Create (chat_request cli msgs temperature)]).
Proof.
  revert st. induction range as [|attempt rest IH]; intros st.
  - exists []. simpl. unfold logged. rewrite app_nil_r.
    destruct st; split; [reflexivity|left; reflexivity].
  - simpl attempts. unfold try_except_GroqError, create at 1.
    fold (chat_request cli msgs temperature).
    assert (Stop : forall o : Outcome (option str),
              exists evs,
                snd (o, logged st [Create (chat_request cli msgs temperature)])
                = logged st evs
                /\ (evs = rounds (chat_request cli msgs temperature)
                            (attempt :: rest)
                    \/ exists j,
                         j < length (attempt :: rest)
                         /\ evs = rounds (chat_request cli msgs temperature)
                                    (firstn j (attempt :: rest))
                                  ++ [Create (chat_request cli msgs temperature)])).
    { intros o. exists [Create (chat_request cli msgs temperature)].
      split; [reflexivity|]. right. exists 0. simpl. split; [lia|reflexivity]. }
    destruct (endpoint (creates (trace st)) (chat_request cli msgs temperature))
      as [text|e]; [apply (Stop (Returned (Some text)))|].
    destruct e as [code message| | | | | |];
      try (match goal with |- context [Raised ?x] =>
             apply (Stop (@Raised (option str) x)) end).
    destruct (transient code);
      [|apply (Stop (@Raised (option str) (GroqError code message)))].
    unfold bind at 1. unfold time_sleep, emit. simpl.
    match goal with |- context [attempts _ _ _ _ rest ?s] =>
      destruct (IH s) as (evs & Hs & Hev); rewrite Hs end.
    exists ([Create (chat_request cli msgs temperature);
             Sleep (2 ^ Z.of_nat attempt)] ++ evs).
    split; [unfold logged; simpl; rewrite <- !app_assoc; reflexivity|].
    destruct Hev as [->|(j & Hj & ->)].
    + left. reflexivity.
    + right. exists (S j). split; [simpl; lia|reflexivity].
Qed.

End RetryLoop.

(** X4. Whatever the endpoint answers, what one [groq_chat] does after
    the client is obtained is, in this order: a call; or a call, a wait of
    1 and a call; or a call, a wait of 1, a call, a wait of 2 and a call;
    or these five and a wait of 4. Every wait comes right after a call,
    the waits are 1, 2, 4 in that order, and only the wait of 4 is not
    followed by a call. *)
Theorem groq_chat_backoff_schedule :
  forall endpoint msgs temperature st cli st1,
    get_client endpoint st = (Returned cli, st1) ->
    let req := chat_request cli msgs temperature in
    exists evs,
      snd (groq_chat endpoint msgs temperature st) = logged st1 evs
      /\ (evs = [Create req]
          \/ evs = [Create req; Sleep 1; Create req]
          \/ evs = [Create req; Sleep 1; Create req; Sleep 2; Create req]
          \/ evs = [Create req; Sleep 1; Create req; Sleep 2; Create req;
                    Sleep 4]).
Proof.
  intros endpoint msgs temperature st cli st1 H req. subst req.
  rewrite (groq_chat_with_client endpoint msgs temperature st cli st1 H).
  destruct (attempts_events endpoint msgs temperature cli (seq 0 3) st1)
    as (evs & Hs & Hev).
  exists evs. split; [exact Hs|].
  destruct Hev as [->|(j & Hj & ->)].
  - right. right. right. reflexivity.
  - simpl in Hj. destruct j as [|[|[|j]]]; [| | |lia].
    + left. reflexivity.
    + right. left. reflexivity.
    + right. right. left. reflexivity.
Qed.

Lemma groq_chat_backoff_schedule_witness :
  get_client endpoint_fails_twice (demo_state [])
  = (Returned demo_client, demo_state [])
  /\ exists evs,
       snd (groq_chat endpoint_fails_twice demo_msgs (5 # 10)%Q (demo_state []))
       = logged (demo_state []) evs
       /\ (evs = [Create (chat_request demo_client demo_msgs (5 # 10)%Q)]
           \/ evs = [Create (chat_request demo_client demo_msgs (5 # 10)%Q);
                     Sleep 1;
                     Create (chat_request demo_client demo_msgs (5 # 10)%Q)]
           \/ evs = [Create (chat_request demo_client demo_msgs (5 # 10)%Q);
                     Sleep 1;
                     Create (chat_request demo_client demo_msgs (5 # 10)%Q);
                     Sleep 2;
                     Create (chat_request demo_client demo_msgs (5 # 10)%Q)]
           \/ evs = [Create (chat_request demo_client demo_msgs (5 # 10)%Q);
                     Sleep 1;
                     Create (chat_request demo_client demo_msgs (5 # 10)%Q);
                     Sleep 2;
                     Create (chat_request demo_client demo_msgs (5 # 10)%Q);
                     Sleep 4]).
Proof.
  split; [reflexivity|].
  exact (groq_chat_backoff_schedule endpoint_fails_twice demo_msgs (5 # 10)%Q
           (demo_state []) demo_client (demo_state []) eq_refl).
Defined.

(** X5. Only [GroqError] is caught: any other exception of a call leaves
    [groq_chat] as it is, after that one call and without a wait. *)
Theorem groq_chat_other_exception_passes :
  forall endpoint msgs temperature st cli st1 e,
    get_client endpoint st = (Returned cli, st1) ->
    endpoint (creates (trace st1)) (chat_request cli msgs temperature)
    = Failure e ->
    (forall code message, e <> GroqError code message) ->
    groq_chat endpoint msgs temperature st
    = (Raised e, logged st1 [Create (chat_request cli msgs temperature)]).
Proof.
  intros endpoint msgs temperature st cli st1 e Hcli He Hn.
  rewrite (groq_chat_with_client endpoint msgs temperature st cli st1 Hcli).
  simpl. unfold try_except_GroqError, create.
  fold (chat_request cli msgs temperature). rewrite He.
  destruct e; try reflexivity. exfalso. exact (Hn _ _ eq_refl).
Qed.

Lemma groq_chat_other_exception_passes_witness :
  get_client (endpoint_raises ValueError) (demo_state [])
  = (Returned demo_client, demo_state [])
  /\ groq_chat (endpoint_raises ValueError) demo_msgs (5 # 10)%Q (demo_state [])
     = (Raised ValueError,
        logged (demo_state [])
          [Create (chat_request demo_client demo_msgs (5 # 10)%Q)]).
Proof.
  split; [reflexivity|].
  apply (groq_chat_other_exception_passes (endpoint_raises ValueError)
           demo_msgs (5 # 10)%Q (demo_state []) demo_client (demo_state [])
           ValueError eq_refl eq_refl).
  intros code message. discriminate.
Defined.

(* ===================================================================== *)
(** ** The reply format *)
(* ===================================================================== *)

Section Strip.

Lemma lstrip_fixed c t : isspace c = false -> lstrip (c :: t) = c :: t.
Proof. intros H. simpl. rewrite H. reflexivity. Qed.

Lemma lstrip_idempotent s : lstrip (lstrip s) = lstrip s.
Proof.
  induction s as [|c t IH]; [reflexivity|]. simpl.
  destruct (isspace c) eqn:E; [exact IH|]. simpl. rewrite E. reflexivity.
Qed.

Lemma lstrip_app s t :
  lstrip (s ++ t) = match lstrip s with [] => lstrip t | _ :: _ => lstrip s ++ t end.
Proof.
  induction s as [|c s IH]; [reflexivity|]. simpl.
  destruct (isspace c); [exact IH|reflexivity].
Qed.

(** [rstrip] from the left. *)
Lemma rstrip_cons c t :
  rstrip (c :: t)
  = if is_empty (rstrip t) && isspace c then [] else c :: rstrip t.
Proof.
  unfold rstrip. simpl rev. rewrite lstrip_app.
  destruct (lstrip (rev t)) as [|d l] eqn:E; simpl.
  - destruct (isspace c); reflexivity.
  - rewrite rev_app_distr. simpl.
    destruct (rev l ++ [d]) eqn:E'; [|reflexivity].
    apply app_eq_nil in E'. destruct E' as [_ E']. discriminate.
Qed.

Lemma rstrip_idempotent s : rstrip (rstrip s) = rstrip s.
Proof.
  unfold rstrip. rewrite rev_involutive, lstrip_idempotent. reflexivity.
Qed.

Lemma lstrip_rstrip s : lstrip s = s -> lstrip (rstrip s) = rstrip s.
Proof.
  destruct s as [|c t]; [reflexivity|]. simpl.
  destruct (isspace c) eqn:E.
  - intros H. exfalso.
    assert (L : forall u, length (lstrip u) <= length u).
    { induction u as [|d u IH]; simpl; [lia|].
      destruct (isspace d); simpl; lia. }
    specialize (L t). rewrite H in L. simpl in L. lia.
  - intros _. rewrite rstrip_cons, E, andb_false_r. apply lstrip_fixed. exact E.
Qed.

Lemma strip_idempotent s : strip (strip s) = strip s.
Proof.
  unfold strip.
  rewrite (lstrip_rstrip (lstrip s) (lstrip_idempotent s)).
  apply rstrip_idempotent.
Qed.

Lemma strip_space_l c s : isspace c = true -> strip (c :: s) = strip s.
Proof. intros H. unfold strip. simpl. rewrite H. reflexivity. Qed.

Lemma strip_space_r c s : isspace c = true -> strip (s ++ [c]) = strip s.
Proof.
  intros H. unfold strip. rewrite lstrip_app.
  destruct (lstrip s) as [|d l] eqn:E.
  - simpl. rewrite H. reflexivity.
  - unfold rstrip. rewrite rev_app_distr. simpl. rewrite H. reflexivity.
Qed.

End Strip.

Section FirstLabel.

(** A border-free label written after a text that does not hold it is
    found right there. *)
Lemma find_after_free label e q :
  border_free label = true -> ~ contains e label ->
  find (e ++ label ++ q) label = Some (length e).
Proof.
  intros Hb Hfree.
  destruct (contains_find (e ++ label ++ q) label) as [i F];
    [exists e, q; reflexivity|].
  rewrite F. f_equal.
  pose proof (find_leftmost _ _ _ e q F eq_refl) as Hle.
  destruct (find_Some _ _ _ F) as [Hs Hl].
  remember (firstn i (e ++ label ++ q)) as pre eqn:Epre.
  remember (skipn (i + length label) (e ++ label ++ q)) as post eqn:Epost.
  clear Epre Epost F.
  destruct (Nat.eq_dec i (length e)) as [E|Hne]; [exact E|exfalso].
  apply app_eq_app in Hs. destruct Hs as [l [[H1 H2]|[H1 H2]]].
  - (* the occurrence found starts inside [e] *)
    destruct l as [|c l].
    + rewrite app_nil_r in H1. apply Hne. rewrite <- Hl, <- H1. reflexivity.
    + symmetry in H2. apply app_eq_app in H2.
      destruct H2 as [l2 [[H3 H4]|[H3 H4]]].
      * apply Hfree. exists pre, l2. rewrite H1, H3. reflexivity.
      * destruct l2 as [|d l2].
        -- apply Hfree. exists pre, [].
           rewrite H1, H3, !app_nil_r. reflexivity.
        -- exact (border_clash label (c :: l) (d :: l2) _ _ Hb H3
                    ltac:(discriminate) ltac:(discriminate) H4).
  - apply (f_equal (@length N)) in H1. rewrite length_app in H1. lia.
Qed.

End FirstLabel.

Lemma parse_reply_at_label (e q : str) :
  ~ contains e QUESTION ->
  parse_reply (e ++ QUESTION ++ q)
  = (strip (replace e EVALUATION []), strip q).
Proof.
  intros H.
  rewrite (parse_reply_label _ (length e)
             (find_after_free QUESTION e q eq_refl H)).
  assert (E1 : firstn (length e) (e ++ QUESTION ++ q) = e).
  { rewrite firstn_app, Nat.sub_diag, firstn_all. simpl. apply app_nil_r. }
  assert (E2 : skipn (length e + length QUESTION) (e ++ QUESTION ++ q) = q).
  { rewrite app_assoc, <- length_app, skipn_app, Nat.sub_diag, skipn_all.
    reflexivity. }
  rewrite E1, E2. reflexivity.
Qed.

(** X6. A reply is cut at its first [QUESTION:]: with no [QUESTION:] in
    the text before the label, everything after the label, later labels
    included, is the question. *)
Theorem parse_reply_cuts_at_first_label :
  forall e q : str,
    ~ contains e QUESTION ->
    parse_reply (e ++ QUESTION ++ q)
    = (strip (replace e EVALUATION []), strip q).
Proof.
  intros e q H. exact (parse_reply_at_label e q H).
Qed.

Lemma parse_reply_cuts_at_first_label_witness :
  ~ contains (py "Fine. ") QUESTION
  /\ parse_reply (py "Fine. " ++ QUESTION ++ py " Why? QUESTION: And how?")
     = (strip (replace (py "Fine. ") EVALUATION []),
        strip (py " Why? QUESTION: And how?")).
Proof.
  assert (H : ~ contains (py "Fine. ") QUESTION)
    by (apply find_None; reflexivity).
  split; [exact H|].
  exact (parse_reply_cuts_at_first_label (py "Fine. ")
           (py " Why? QUESTION: And how?") H).
Defined.

(** X8. What the parser gives for a stripped reply is stripped: neither
    the evaluation nor the question starts or ends with white space. *)
Theorem parse_reply_gives_stripped_texts :
  forall text : str,
    strip (fst (parse_reply (strip text))) = fst (parse_reply (strip text))
    /\ strip (snd (parse_reply (strip text))) = snd (parse_reply (strip text)).
Proof.
  intros text. destruct (find (strip text) QUESTION) as [i|] eqn:F.
  - rewrite (parse_reply_label _ i F). simpl. split; apply strip_idempotent.
  - rewrite (parse_reply_no_label _ F). simpl.
    split; [reflexivity|apply strip_idempotent].
Qed.

Section RoundTrip.

Lemma find_at_head s sub : startswith s sub = true -> find s sub = Some 0.
Proof. intros H. destruct s; simpl; rewrite H; reflexivity. Qed.

Lemma not_contains_find s sub : ~ contains s sub -> find s sub = None.
Proof.
  intros H. destruct (find s sub) as [i|] eqn:F; [|reflexivity].
  exfalso. exact (H (find_contains _ _ _ F)).
Qed.

(** The label at the head of a text that holds it nowhere else. *)
Lemma replace_at_head label r :
  label <> [] -> ~ contains r label -> replace (label ++ r) label [] = r.
Proof.
  intros Hne Hfree. unfold replace, split_all.
  destruct (length (label ++ r)) as [|m] eqn:L.
  - apply length_zero_iff_nil in L. apply app_eq_nil in L.
    destruct L as [L _]. contradiction.
  - simpl split. rewrite (find_at_head _ _ (startswith_app label r)).
    simpl firstn. simpl Nat.add.
    rewrite skipn_app, Nat.sub_diag, skipn_all. simpl app.
    rewrite (split_no_sep r label m (not_contains_find _ _ Hfree)).
    reflexivity.
Qed.

(** A line end after a text adds no occurrence of a label of one line. *)
Lemma not_contains_line label s :
  ~ In 10%N label -> label <> [] ->
  ~ contains s label -> ~ contains (s ++ newline) label.
Proof.
  intros Hnl Hne Hfree H. rewrite <- (app_nil_r newline) in H.
  apply contains_across_newline in H; [|exact Hnl].
  destruct H as [H|H]; [exact (Hfree H)|].
  exact (not_contains_nil label Hne H).
Qed.

End RoundTrip.

(** X7. The two-line format round-trips: a reply written as asked,
    [EVALUATION: <ev>], new line, [QUESTION: <qu>], with [ev] and [qu]
    stripped and no label inside [ev], is parsed back into [ev] and [qu]. *)
Theorem reply_format_round_trip :
  forall ev qu : str,
    strip ev = ev -> strip qu = qu ->
    ~ contains ev QUESTION -> ~ contains ev EVALUATION ->
    parse_reply (py "EVALUATION: " ++ ev ++ py "
QUESTION: " ++ qu) = (ev, qu).
Proof.
  intros ev qu Hev Hqu HQ HE.
  assert (NQ : ~ In 10%N QUESTION)
    by (intros Hin; vm_compute in Hin; intuition discriminate).
  assert (NE : ~ In 10%N EVALUATION)
    by (intros Hin; vm_compute in Hin; intuition discriminate).
  replace (py "EVALUATION: " ++ ev ++ py "
QUESTION: " ++ qu)
    with ((py "EVALUATION: " ++ ev ++ newline) ++ QUESTION ++ (py " " ++ qu))
    by (rewrite <- !app_assoc; reflexivity).
  rewrite parse_reply_at_label.
  - f_equal.
    + change (py "EVALUATION: " ++ ev ++ newline)
        with (EVALUATION ++ (32%N :: ev ++ newline)).
      rewrite replace_at_head.
      * rewrite strip_space_l by reflexivity.
        unfold newline. rewrite strip_space_r by reflexivity. exact Hev.
      * discriminate.
      * intros H. apply (contains_after EVALUATION [32%N]) in H; [|reflexivity].
        revert H. apply not_contains_line; [exact NE|discriminate|exact HE].
    + change (py " " ++ qu) with (32%N :: qu).
      rewrite strip_space_l by reflexivity. exact Hqu.
  - intros H. apply contains_after in H; [|reflexivity].
    revert H. apply not_contains_line; [exact NQ|discriminate|exact HQ].
Qed.

Lemma reply_format_round_trip_witness :
  strip (py "Good clarity") = py "Good clarity"
  /\ strip (py "Tell me about X") = py "Tell me about X"
  /\ ~ contains (py "Good clarity") QUESTION
  /\ ~ contains (py "Good clarity") EVALUATION
  /\ parse_reply (py "EVALUATION: " ++ py "Good clarity" ++ py "
QUESTION: " ++ py "Tell me about X")
     = (py "Good clarity", py "Tell me about X").
Proof.
  assert (HQ : ~ contains (py "Good clarity") QUESTION)
    by (apply find_None; reflexivity).
  assert (HE : ~ contains (py "Good clarity") EVALUATION)
    by (apply find_None; reflexivity).
  split; [reflexivity|]. split; [reflexivity|].
  split; [exact HQ|]. split; [exact HE|].
  exact (reply_format_round_trip (py "Good clarity") (py "Tell me about X")
           eq_refl eq_refl HQ HE).
Defined.

(* ===================================================================== *)
(** ** Runs of the interview page *)
(* ===================================================================== *)

Section InterviewRuns.

Variable endpoint : nat -> Request -> Response.

Lemma said_set_eval v m : said (set_eval v m) = said m.
Proof. reflexivity. Qed.

(** The greeting step returns with the history it found, when there is
    one, or with the greeting alone; it raises only from an empty history,
    which it leaves empty. *)
Lemma greeting_step_outcome st :
  match greeting_step endpoint st with
  | (Returned _, st2) =>
      (history (sess st) <> [] /\ history (sess st2) = history (sess st))
      \/ (history (sess st) = []
          /\ exists g, history (sess st2) = [interviewer_turn g])
  | (Raised _, st2) => history (sess st) = [] /\ history (sess st2) = []
  end.
Proof.
  rewrite greeting_step_run.
  destruct (history (sess st)) as [|x h] eqn:E.
  - pose proof (groq_chat_keeps endpoint (greet_messages (profile_md (sess st)))
                  (5 # 10)%Q st) as K.
    destruct (groq_chat endpoint _ _ st) as [[[text|]|e] st1];
      destruct K as (Kh & _); simpl in Kh; rewrite E in Kh.
    + right. split; [reflexivity|]. exists (strip text). simpl.
      rewrite Kh. reflexivity.
    + split; [reflexivity|exact Kh].
    + split; [reflexivity|exact Kh].
  - left. rewrite E. split; [discriminate|reflexivity].
Qed.

(** A submission appends the candidate turn and, when it returns, the
    interviewer turn; the turns before keep their role and content. *)
Lemma candidate_reply_said user_txt st :
  exists extra,
    map said (history (sess (snd (candidate_reply endpoint user_txt st))))
    = map said (history (sess st)) ++ (candidate, user_txt) :: extra
    /\ length extra <= 1.
Proof.
  destruct (candidate_reply endpoint user_txt st) as [[[]|e] st'] eqn:C.
  - destruct (candidate_reply_returned endpoint user_txt st st' C)
      as (h0 & m & eval_text & question & E & E' & _).
    exists [(interviewer, question)]. simpl snd. rewrite E', E, !map_app.
    simpl. rewrite <- app_assoc. split; [reflexivity|lia].
  - destruct (candidate_reply_raised endpoint user_txt st e st' C)
      as ((Kh & _) & _).
    exists []. simpl snd. rewrite Kh. simpl. rewrite map_app.
    split; [reflexivity|simpl; lia].
Qed.

(** The report step changes neither the history nor the profile. *)
Lemma report_step_keeps w st :
  history (sess (snd (report_step endpoint w st))) = history (sess st)
  /\ profile_md (sess (snd (report_step endpoint w st))) = profile_md (sess st).
Proof.
  unfold report_step, bind, get, when.
  destruct ((4 <=? length (history (sess st)))%nat && button w _);
    [|split; reflexivity].
  unfold generate_report, bind, get.
  match goal with |- context [groq_chat endpoint ?m ?t st] =>
    pose proof (groq_chat_keeps endpoint m t st) as K;
    destruct (groq_chat endpoint m t st) as [[r|e] st1] end;
    destruct K as (Kh & _ & Kp); simpl in *; split; assumption.
Qed.

End InterviewRuns.

(** X9. An empty answer is no answer: with a history, nothing typed (or
    the empty text) and the report button not clicked, a run of the
    interview page calls nothing and changes nothing. *)
Theorem empty_answer_is_ignored :
  forall endpoint w st,
    history (sess st) <> [] ->
    chat_input w (py "Your answer…") = None
    \/ chat_input w (py "Your answer…") = Some [] ->
    button w (py "Generate interview report") = false ->
    page_interview endpoint w st = (Returned tt, st).
Proof.
  intros endpoint w st Hh Hin Hb.
  rewrite page_interview_run, greeting_step_run.
  destruct (history (sess st)) as [|x h] eqn:E; [congruence|].
  assert (T : truthy (chat_input w (py "Your answer…")) = false)
    by (destruct Hin as [-> | ->]; reflexivity).
  rewrite T. unfold report_step, bind, get, when. rewrite Hb, andb_false_r.
  reflexivity.
Qed.

Lemma empty_answer_is_ignored_witness :
  history (sess (demo_state [demo_greeting])) <> []
  /\ (chat_input (answering []) (py "Your answer…") = None
      \/ chat_input (answering []) (py "Your answer…") = Some [])
  /\ button (answering []) (py "Generate interview report") = false
  /\ page_interview endpoint_two_lines (answering []) (demo_state [demo_greeting])
     = (Returned tt, demo_state [demo_greeting]).
Proof.
  assert (H : history (sess (demo_state [demo_greeting])) <> [])
    by discriminate.
  split; [exact H|]. split; [right; reflexivity|]. split; [reflexivity|].
  exact (empty_answer_is_ignored endpoint_two_lines (answering [])
           (demo_state [demo_greeting]) H (or_intror eq_refl) eq_refl).
Defined.

(** X10. Generating the report never touches the turns or the profile,
    whether the call succeeds or not; and with fewer than four turns a
    click on the report button calls nothing and changes nothing. *)
Theorem report_leaves_history :
  forall endpoint w st,
    history (sess (snd (report_step endpoint w st))) = history (sess st)
    /\ profile_md (sess (snd (report_step endpoint w st))) = profile_md (sess st)
    /\ (length (history (sess st)) < 4 ->
        report_step endpoint w st = (Returned tt, st)).
Proof.
  intros endpoint w st.
  destruct (report_step_keeps endpoint w st) as [Kh Kp].
  split; [exact Kh|]. split; [exact Kp|].
  intros Hlt. unfold report_step, bind, get, when.
  replace (4 <=? length (history (sess st)))%nat with false
    by (symmetry; apply Nat.leb_gt; exact Hlt).
  reflexivity.
Qed.

Lemma report_leaves_history_witness :
  length (history (sess (demo_state [demo_greeting]))) < 4
  /\ report_step endpoint_two_lines asking_report (demo_state [demo_greeting])
     = (Returned tt, demo_state [demo_greeting]).
Proof.
  assert (H : length (history (sess (demo_state [demo_greeting]))) < 4)
    by (simpl; lia).
  split; [exact H|].
  exact (proj2 (proj2 (report_leaves_history endpoint_two_lines asking_report
                         (demo_state [demo_greeting]))) H).
Defined.

(** X11. The transcript only grows: whatever a run of the interview page
    does, the turns that were there keep their place, role and content, at
    most three turns are added, and onto an empty history the first one
    added is the interviewer's. *)
Theorem transcript_append_only :
  forall endpoint w st,
    exists extra,
      map said (history (sess (snd (page_interview endpoint w st))))
      = map said (history (sess st)) ++ extra
      /\ length extra <= 3
      /\ (history (sess st) = [] ->
          extra = [] \/ exists g rest, extra = (interviewer, g) :: rest).
Proof.
  intros endpoint w st. rewrite page_interview_run.
  pose proof (greeting_step_outcome endpoint st) as G.
  destruct (greeting_step endpoint st) as [[[]|e] st2].
  - assert (Step : exists first,
              map said (history (sess st2)) = map said (history (sess st)) ++ first
              /\ length first <= 1
              /\ (history (sess st) = [] -> exists g, first = [(interviewer, g)])).
    { destruct G as [(Hne & G)|(G0 & g & G)].
      - exists []. rewrite G, app_nil_r.
        split; [reflexivity|]. split; [simpl; lia|]. intros H0. congruence.
      - exists [(interviewer, g)]. rewrite G, G0.
        split; [reflexivity|]. split; [simpl; lia|].
        intros _. exists g. reflexivity. }
    destruct Step as (first & S1 & S2 & S3).
    assert (Combine : forall more,
              length more <= 2 ->
              length (first ++ more) <= 3
              /\ (history (sess st) = [] ->
                  first ++ more = []
                  \/ exists g rest, first ++ more = (interviewer, g) :: rest)).
    { intros more Hm. split; [rewrite length_app; lia|].
      intros H0. destruct (S3 H0) as (g & ->).
      right. exists g, more. reflexivity. }
    destruct (truthy (chat_input w _)).
    + match goal with |- context [candidate_reply endpoint ?t st2] =>
        set (user_txt := t) end.
      destruct (candidate_reply_said endpoint user_txt st2) as (extra & E & L).
      exists (first ++ (candidate, user_txt) :: extra).
      destruct (candidate_reply endpoint user_txt st2) as [[[]|e] st3];
        simpl snd in E.
      * rewrite (proj1 (report_step_keeps endpoint w st3)), E, S1, <- app_assoc.
        split; [reflexivity|]. apply Combine. simpl. lia.
      * simpl snd. rewrite E, S1, <- app_assoc.
        split; [reflexivity|]. apply Combine. simpl. lia.
    + exists (first ++ []). split.
      * rewrite (proj1 (report_step_keeps endpoint w st2)), S1, app_nil_r.
        reflexivity.
      * apply Combine. simpl. lia.
  - exists []. simpl snd. destruct G as [G0 G].
    rewrite G, G0, app_nil_r. split; [reflexivity|]. split; [simpl; lia|].
    left. reflexivity.
Qed.

(** X12. A retry after a failure doubles the answer: when a submission
    raised and the next one returns, the history holds both candidate
    turns in a row, and the evaluation of the second answer is written on
    the first. *)
Theorem retry_after_failure :
  forall endpoint txt1 txt2 st e st1 st2,
    candidate_reply endpoint txt1 st = (Raised e, st1) ->
    candidate_reply endpoint txt2 st1 = (Returned tt, st2) ->
    exists eval_text question,
      history (sess st2)
      = history (sess st)
        ++ [ {| role := candidate; content := txt1; eval := Some eval_text |};
             {| role := candidate; content := txt2; eval := None |};
             {| role := interviewer; content := question; eval := None |} ].
Proof.
  intros endpoint txt1 txt2 st e st1 st2 H1 H2.
  destruct (candidate_reply_raised endpoint txt1 st e st1 H1) as ((Kh & _) & _).
  destruct (candidate_reply_returned endpoint txt2 st1 st2 H2)
    as (h0 & m & eval_text & question & E & E' & _).
  rewrite Kh in E. simpl in E. apply app_inj_tail in E. destruct E as [<- <-].
  exists eval_text, question. exact E'.
Qed.

Lemma retry_after_failure_witness :
  candidate_reply endpoint_refuses_once demo_answer (demo_state [demo_greeting])
  = (Raised (GroqError 401 (py "error")),
     snd (candidate_reply endpoint_refuses_once demo_answer
            (demo_state [demo_greeting])))
  /\ candidate_reply endpoint_refuses_once demo_answer
       (snd (candidate_reply endpoint_refuses_once demo_answer
               (demo_state [demo_greeting])))
     = (Returned tt,
        snd (candidate_reply endpoint_refuses_once demo_answer
               (snd (candidate_reply endpoint_refuses_once demo_answer
                       (demo_state [demo_greeting])))))
  /\ exists eval_text question,
       history (sess (snd (candidate_reply endpoint_refuses_once demo_answer
                             (snd (candidate_reply endpoint_refuses_once demo_answer
                                     (demo_state [demo_greeting]))))))
       = history (sess (demo_state [demo_greeting]))
         ++ [ {| role := candidate; content := demo_answer;
                 eval := Some eval_text |};
              {| role := candidate; content := demo_answer; eval := None |};
              {| role := interviewer; content := question; eval := None |} ].
Proof.
  split; [reflexivity|]. split; [reflexivity|].
  exact (retry_after_failure endpoint_refuses_once demo_answer demo_answer
           (demo_state [demo_greeting]) _ _ _ eq_refl eq_refl).
Defined.

(* ===================================================================== *)
(** ** What every page keeps *)
(* ===================================================================== *)

Section Keeps.

Variable endpoint : nat -> Request -> Response.
Variable I : Session -> Prop.

Lemma keeps_ret {A} (a : A) : keeps I (ret a).
Proof. intros st H. exact H. Qed.

Lemma keeps_raise {A} (e : exn) : keeps I (@raise A e).
Proof. intros st H. exact H. Qed.

Lemma keeps_emit ev : keeps I (emit ev).
Proof. intros st H. exact H. Qed.

Lemma keeps_modify f : (forall s, I s -> I (f s)) -> keeps I (modify f).
Proof. intros Hf st H. exact (Hf _ H). Qed.

Lemma keeps_bind {A B} (m : M A) (k : A -> M B) :
  keeps I m -> (forall a, keeps I (k a)) -> keeps I (bind m k).
Proof.
  intros Hm Hk st H. unfold bind. specialize (Hm st H).
  destruct (m st) as [[a|e] st1]; simpl in Hm; [|exact Hm].
  exact (Hk a st1 Hm).
Qed.

(** After [get], the rest may use that the session it got satisfies [I]. *)
Lemma keeps_get {B} (k : Session -> M B) :
  (forall s, I s -> keeps I (k s)) -> keeps I (bind get k).
Proof.
  intros Hk st H. unfold bind, get. exact (Hk (sess st) H st H).
Qed.

Lemma keeps_when b m : keeps I m -> keeps I (when b m).
Proof. intros Hm. destruct b; [exact Hm|apply keeps_ret]. Qed.

Lemma keeps_try {A B} (body : M A) (on_return : A -> M B)
    (handler : Z -> str -> M B) :
  keeps I body -> (forall a, keeps I (on_return a)) ->
  (forall c m, keeps I (handler c m)) ->
  keeps I (try_except_GroqError body on_return handler).
Proof.
  intros Hb Hr Hh st H. unfold try_except_GroqError. specialize (Hb st H).
  destruct (body st) as [[a|e] st1]; simpl in Hb.
  - exact (Hr a st1 Hb).
  - destruct e; try exact Hb. exact (Hh _ _ st1 Hb).
Qed.

Lemma keeps_create req : keeps I (create endpoint req).
Proof.
  intros st H. unfold create. destruct (endpoint _ _); exact H.
Qed.

(** The chat client keeps whatever survives its two writes, the jump to
    the key page and the caching of the handle, both made only while no
    handle is cached. *)
Hypothesis I_page : forall s, client s = None -> I s -> I (set_page apikey s).
Hypothesis I_client :
  forall s cli, client s = None -> I s -> I (set_client (Some cli) s).

Lemma keeps_get_client : keeps I (get_client endpoint).
Proof.
  intros st H. unfold get_client, bind, get.
  destruct (client (sess st)) as [cli|] eqn:E; [exact H|].
  destruct (is_empty (api_key (sess st))); simpl.
  - exact (I_page _ E H).
  - unfold try_except_GroqError, create.
    destruct (endpoint _ _) as [text|e]; simpl.
    + exact (I_client _ _ E H).
    + destruct e; exact H.
Qed.

Lemma keeps_groq_chat msgs temperature :
  keeps I (groq_chat endpoint msgs temperature).
Proof.
  intros st H. unfold groq_chat, bind.
  pose proof (keeps_get_client st H) as K.
  destruct (get_client endpoint st) as [[cli|e] st1]; simpl in K; [|exact K].
  rewrite attempts_sess. exact K.
Qed.

End Keeps.

(** One step through a computation, for a goal [keeps I m]. *)
Ltac keeps_step :=
  lazymatch goal with
  | |- keeps _ (bind get _) => apply keeps_get; intros ? ?
  | |- keeps _ (bind _ _) => apply keeps_bind; [|intros ?]
  | |- keeps _ (ret _) => apply keeps_ret
  | |- keeps _ (raise _) => apply keeps_raise
  | |- keeps _ (when _ _) => apply keeps_when
  | |- keeps _ (modify _) => apply keeps_modify; intros ? ?; cbv beta; auto
  | |- keeps _ (match ?x with _ => _ end) => destruct x
  end.

Section PageKeeps.

Variable endpoint : nat -> Request -> Response.
Variable I : Session -> Prop.

(** What [I] has to survive: the writes of the pages, field by field. *)
Hypothesis I_history : forall s h, I s -> I (set_history h s).
Hypothesis I_form : forall s f, I s -> I (set_form f s).
Hypothesis I_profile_md : forall s p, I s -> I (set_profile_md p s).
Hypothesis I_report_md : forall s r, I s -> I (set_report_md r s).
Hypothesis I_show_eval : forall s b, I s -> I (set_show_eval b s).
Hypothesis I_api_key : forall s k, I s -> I (set_api_key k s).
Hypothesis I_landing : forall s, I s -> I (set_page landing s).
Hypothesis I_setup : forall s, I s -> I (set_page setup s).
Hypothesis I_profile : forall s, I s -> I (set_page profile s).
Hypothesis I_interview : forall s, I s -> I (set_page interview s).
Hypothesis I_page : forall s, client s = None -> I s -> I (set_page apikey s).
Hypothesis I_client :
  forall s cli, client s = None -> I s -> I (set_client (Some cli) s).

Lemma keeps_chat msgs temperature : keeps I (groq_chat endpoint msgs temperature).
Proof. exact (keeps_groq_chat endpoint I I_page I_client msgs temperature). Qed.

Lemma keeps_page_apikey w : keeps I (page_apikey w).
Proof.
  unfold page_apikey, st_rerun. repeat keeps_step.
Qed.

Lemma keeps_landing_buttons w items : keeps I (landing_buttons endpoint w items).
Proof.
  induction items as [|[name tpl] rest IH]; simpl.
  - apply keeps_ret.
  - apply keeps_bind; [|intros _; exact IH].
    unfold update_form, generate_profile, st_rerun.
    apply keeps_when. apply keeps_bind; [keeps_step|intros _].
    apply keeps_bind; [apply keeps_chat|intros p]. repeat keeps_step.
Qed.

Lemma keeps_page_landing w : keeps I (page_landing endpoint w).
Proof.
  unfold page_landing, st_rerun.
  apply keeps_bind; [apply keeps_landing_buttons|intros _]. repeat keeps_step.
Qed.

Lemma keeps_fill_form w : keeps I (fill_form w).
Proof.
  unfold fill_form, load_template, form_inputs, tech_stack_input,
    criteria_input, update_form.
  repeat keeps_step.
Qed.

Lemma keeps_page_setup w : keeps I (page_setup endpoint w).
Proof.
  unfold page_setup, generate_profile, st_rerun.
  apply keeps_bind; [apply keeps_fill_form|intros _].
  apply keeps_when. apply keeps_get. intros s _.
  apply keeps_bind; [apply keeps_chat|intros p]. repeat keeps_step.
Qed.

Lemma keeps_page_profile w : keeps I (page_profile w).
Proof.
  unfold page_profile, st_rerun. repeat keeps_step.
Qed.

Lemma keeps_greeting_step : keeps I (greeting_step endpoint).
Proof.
  unfold greeting_step, history_append, strip_result.
  apply keeps_get. intros s _. apply keeps_when.
  apply keeps_bind; [apply keeps_chat|intros r]. repeat keeps_step.
Qed.

Lemma keeps_candidate_reply user_txt : keeps I (candidate_reply endpoint user_txt).
Proof.
  unfold candidate_reply, history_append, strip_result.
  apply keeps_bind; [keeps_step|intros _].
  apply keeps_get. intros s _.
  apply keeps_bind; [apply keeps_chat|intros r]. repeat keeps_step.
Qed.

Lemma keeps_report_step w : keeps I (report_step endpoint w).
Proof.
  unfold report_step, generate_report, st_rerun.
  apply keeps_get. intros s _. apply keeps_when.
  apply keeps_bind; [|intros r; repeat keeps_step].
  apply keeps_get. intros s' _. apply keeps_chat.
Qed.

Lemma keeps_page_interview w : keeps I (page_interview endpoint w).
Proof.
  unfold page_interview.
  apply keeps_bind; [apply keeps_greeting_step|intros _].
  apply keeps_bind; [|intros _; apply keeps_report_step].
  apply keeps_when. apply keeps_candidate_reply.
Qed.

End PageKeeps.

(** X14. The pages form a state machine: a script run that starts on a
    page leaves the session on that page or on one of its successors (key
    page: landing; landing: profile, setup; setup: profile; profile:
    interview, setup; and, from every page that calls the endpoint, the
    key page). *)
Theorem router_transitions :
  forall endpoint w st,
    In (page (sess (snd (router endpoint w st)))) (targets (page (sess st))).
Proof.
  intros endpoint w st. unfold router, bind, get.
  destruct (page (sess st)) eqn:P.
  - assert (K : keeps (fun s => In (page s) (targets apikey)) (page_apikey w))
      by (apply keeps_page_apikey; intros; simpl in *; tauto).
    apply (K st). rewrite P. simpl. tauto.
  - assert (K : keeps (fun s => In (page s) (targets landing))
                  (page_landing endpoint w))
      by (apply keeps_page_landing; intros; simpl in *; tauto).
    apply (K st). rewrite P. simpl. tauto.
  - assert (K : keeps (fun s => In (page s) (targets setup))
                  (page_setup endpoint w))
      by (apply keeps_page_setup; intros; simpl in *; tauto).
    apply (K st). rewrite P. simpl. tauto.
  - assert (K : keeps (fun s => In (page s) (targets profile)) (page_profile w))
      by (apply keeps_page_profile; intros; simpl in *; tauto).
    apply (K st). rewrite P. simpl. tauto.
  - assert (K : keeps (fun s => In (page s) (targets interview))
                  (page_interview endpoint w))
      by (apply keeps_page_interview; intros; simpl in *; tauto).
    apply (K st). rewrite P. simpl. tauto.
Qed.

(** X15. Once the handle is validated, no script run loses it, changes
    the key or goes back to the key page. *)
Theorem router_keeps_validated_client :
  forall endpoint w st cli,
    client (sess st) = Some cli ->
    page (sess st) <> apikey ->
    client (sess (snd (router endpoint w st))) = Some cli
    /\ page (sess (snd (router endpoint w st))) <> apikey
    /\ api_key (sess (snd (router endpoint w st))) = api_key (sess st).
Proof.
  intros endpoint w st cli Hc Hp.
  set (I := fun s => client s = Some cli /\ page s <> apikey
                     /\ api_key s = api_key (sess st)).
  assert (H0 : I (sess st)) by (unfold I; auto).
  unfold router, bind, get.
  destruct (page (sess st)) eqn:P; [congruence| | | |].
  - assert (K : keeps I (page_landing endpoint w))
      by (apply keeps_page_landing; unfold I; intros; simpl in *;
          intuition (congruence || discriminate)).
    exact (K st H0).
  - assert (K : keeps I (page_setup endpoint w))
      by (apply keeps_page_setup; unfold I; intros; simpl in *;
          intuition (congruence || discriminate)).
    exact (K st H0).
  - assert (K : keeps I (page_profile w))
      by (apply keeps_page_profile; unfold I; intros; simpl in *;
          intuition (congruence || discriminate)).
    exact (K st H0).
  - assert (K : keeps I (page_interview endpoint w))
      by (apply keeps_page_interview; unfold I; intros; simpl in *;
          intuition (congruence || discriminate)).
    exact (K st H0).
Qed.

Lemma router_keeps_validated_client_witness :
  client (sess (demo_state [demo_greeting])) = Some demo_client
  /\ page (sess (demo_state [demo_greeting])) <> apikey
  /\ client (sess (snd (router endpoint_two_lines (answering demo_answer)
                          (demo_state [demo_greeting])))) = Some demo_client
  /\ page (sess (snd (router endpoint_two_lines (answering demo_answer)
                        (demo_state [demo_greeting])))) <> apikey
  /\ api_key (sess (snd (router endpoint_two_lines (answering demo_answer)
                           (demo_state [demo_greeting]))))
     = api_key (sess (demo_state [demo_greeting])).
Proof.
  assert (P : page (sess (demo_state [demo_greeting])) <> apikey)
    by discriminate.
  split; [reflexivity|]. split; [exact P|].
  exact (router_keeps_validated_client endpoint_two_lines
           (answering demo_answer) (demo_state [demo_greeting]) demo_client
           eq_refl P).
Defined.

(* ===================================================================== *)
(** ** The setup form and the templates *)
(* ===================================================================== *)

Section SetupForm.

Lemma list_index_In x options :
  In x options -> exists i, list_index x options = Some i.
Proof.
  induction options as [|o rest IH]; intros H; [destruct H|].
  simpl. destruct (str_eqb o x) eqn:E; [exists 0; reflexivity|].
  destruct H as [->|H]; [rewrite str_eqb_refl in E; discriminate|].
  destruct (IH H) as [i ->]. exists (S i). reflexivity.
Qed.

Lemma list_index_nth x options i :
  list_index x options = Some i -> nth i options [] = x.
Proof.
  revert i. induction options as [|o rest IH]; intros i H; [discriminate|].
  simpl in H. destruct (str_eqb o x) eqn:E.
  - injection H as <-. exact (str_eqb_true _ _ E).
  - destruct (list_index x rest) as [j|]; [|discriminate].
    injection H as <-. simpl. apply IH. reflexivity.
Qed.

Lemma nth_In_default {A} (l : list A) n d : In d l -> In (nth n l d) l.
Proof.
  intros H. destruct (Nat.lt_ge_cases n (length l)) as [L|L].
  - apply nth_In. exact L.
  - rewrite nth_overflow by exact L. exact H.
Qed.

(** The option of the template selector at any position is the
    placeholder or the key of a template with a round of the list. *)
Lemma template_choice n :
  let tpl_names := py "— choose template —" :: map fst PRELOADED_TEMPLATES in
  let chosen := nth n tpl_names (nth 0 tpl_names []) in
  str_eqb chosen (nth 0 tpl_names []) = true
  \/ (str_eqb chosen (nth 0 tpl_names []) = false
      /\ exists tpl, lookup_template chosen PRELOADED_TEMPLATES = Some tpl
                     /\ In (round tpl) round_options).
Proof.
  cbv zeta.
  destruct n as [|[|[|[|[|n]]]]];
    [left; reflexivity
    |right; split; [reflexivity|eexists; split; [reflexivity|simpl; tauto]]..
    |destruct n; left; reflexivity].
Qed.

Lemma load_template_returns w st :
  In (round (form (sess st))) round_options ->
  fst (load_template w st) = Returned tt
  /\ In (round (form (sess (snd (load_template w st))))) round_options.
Proof.
  intros H. unfold load_template, st_selectbox. cbv zeta.
  destruct (template_choice (selected w (py "Load a template")))
    as [E|(E & tpl & L & R)]; cbv zeta in E; rewrite E; simpl negb; unfold when.
  - split; [reflexivity|exact H].
  - cbv zeta in L. rewrite L. split; [reflexivity|exact R].
Qed.

Lemma form_inputs_returns w st :
  In (round (form (sess st))) round_options ->
  fst (form_inputs w st) = Returned tt
  /\ In (round (form (sess (snd (form_inputs w st))))) round_options.
Proof.
  intros H. unfold form_inputs, update_form, modify, bind, get, ret.
  cbn [sess trace form round set_form].
  destruct (list_index_In _ _ H) as [i Ei]. rewrite Ei.
  cbn [sess trace form round set_form set_show_eval fst snd].
  split; [reflexivity|].
  unfold st_selectbox. apply nth_In_default.
  rewrite (list_index_nth _ _ _ Ei). exact H.
Qed.

Lemma tech_stack_input_returns w st :
  fst (tech_stack_input w st) = Returned tt
  /\ round (form (sess (snd (tech_stack_input w st)))) = round (form (sess st)).
Proof.
  unfold tech_stack_input, update_form, modify, bind, get.
  cbn [sess]. destruct (str_eqb _ _); split; reflexivity.
Qed.

End SetupForm.

(** X13. The setup form never fails on its selectors: with a round of the
    list in the form (as [init_session] and every template put one), the
    fields are written without [KeyError] or [ValueError], and the round
    left in the form is again one of the list. *)
Theorem fill_form_never_fails :
  forall w st,
    In (round (form (sess st))) round_options ->
    fst (fill_form w st) = Returned tt
    /\ In (round (form (sess (snd (fill_form w st))))) round_options.
Proof.
  intros w st H. unfold fill_form, bind.
  destruct (load_template_returns w st H) as [R1 I1].
  destruct (load_template w st) as [[[]|e1] st1]; [|discriminate].
  simpl snd in I1.
  destruct (form_inputs_returns w st1 I1) as [R2 I2].
  destruct (form_inputs w st1) as [[[]|e2] st2]; [|discriminate].
  simpl snd in I2.
  destruct (tech_stack_input_returns w st2) as [R3 I3].
  destruct (tech_stack_input w st2) as [[[]|e3] st3]; [|discriminate].
  simpl snd in I3. unfold criteria_input, update_form, modify.
  cbn [fst snd sess form round set_form]. rewrite I3.
  split; [reflexivity|exact I2].
Qed.

Lemma fill_form_never_fails_witness :
  In (round (form (sess (demo_state [])))) round_options
  /\ fst (fill_form idle (demo_state [])) = Returned tt
  /\ In (round (form (sess (snd (fill_form idle (demo_state [])))))) round_options.
Proof.
  assert (H : In (round (form (sess (demo_state [])))) round_options)
    by (left; reflexivity).
  split; [exact H|].
  exact (fill_form_never_fails idle (demo_state []) H).
Defined.

Section TemplateClick.

Variable endpoint : nat -> Request -> Response.

Lemma form_update_template f tpl : form_update f tpl = tpl.
Proof. destruct tpl. reflexivity. Qed.

(** The run of the template buttons when one is clicked: the template is
    written into the form, then the profile is asked for. *)
Lemma landing_buttons_click w items name tpl st :
  clicked_template w items = Some (name, tpl) ->
  landing_buttons endpoint w items st
  = match groq_chat endpoint (profile_messages tpl) (3 # 10)%Q
            {| sess := set_form tpl (sess st); trace := trace st |} with
    | (Returned p, st1) =>
        (Raised RerunException,
         {| sess := set_page profile (set_profile_md p (sess st1));
            trace := trace st1 |})
    | (Raised e, st1) => (Raised e, st1)
    end.
Proof.
  revert st. induction items as [|[n t] rest IH]; intros st H; [discriminate|].
  simpl in H. simpl landing_buttons. destruct (button w n).
  - injection H as -> ->. unfold when, bind at 1.
    unfold bind at 1. unfold update_form, modify at 1. cbn [sess trace].
    rewrite form_update_template.
    unfold generate_profile. fold (profile_messages tpl).
    unfold bind at 1.
    destruct (groq_chat endpoint _ _ _) as [[p|e] st1]; reflexivity.
  - unfold when, bind at 1, ret. exact (IH st H).
Qed.

End TemplateClick.

(** X16. A click on a template, with a validated client and an endpoint
    that answers at once: the form is the template, the profile is the
    answer, the page is the profile page, and the script reruns after
    that one call. *)
Theorem template_click_generates_profile :
  forall endpoint w st cli name tpl text,
    client (sess st) = Some cli ->
    clicked_template w PRELOADED_TEMPLATES = Some (name, tpl) ->
    endpoint (creates (trace st))
      (chat_request cli (profile_messages tpl) (3 # 10)%Q) = Completion text ->
    page_landing endpoint w st
    = (Raised RerunException,
       {| sess := set_page profile
                    (set_profile_md (Some text) (set_form tpl (sess st)));
          trace := trace st
                   ++ [Create (chat_request cli (profile_messages tpl) (3 # 10)%Q)] |}).
Proof.
  intros endpoint w st cli name tpl text Hc Hclick He.
  unfold page_landing, bind.
  rewrite (landing_buttons_click endpoint w _ name tpl st Hclick).
  set (st0 := {| sess := set_form tpl (sess st); trace := trace st |}).
  rewrite (groq_chat_with_client endpoint _ _ st0 cli st0
             (get_client_cached endpoint st0 cli Hc)).
  simpl seq.
  rewrite (attempts_success endpoint _ _ cli 0 _ st0 text He).
  reflexivity.
Qed.

(** X17. A click on a template whose profile call is refused (a status
    other than 429, 500, 503): the error is raised, the page and the
    profile stay as they were, but the form already holds the template. *)
Theorem template_click_refused :
  forall endpoint w st cli name tpl code message,
    client (sess st) = Some cli ->
    clicked_template w PRELOADED_TEMPLATES = Some (name, tpl) ->
    endpoint (creates (trace st))
      (chat_request cli (profile_messages tpl) (3 # 10)%Q)
    = Failure (GroqError code message) ->
    transient code = false ->
    page_landing endpoint w st
    = (Raised (GroqError code message),
       {| sess := set_form tpl (sess st);
          trace := trace st
                   ++ [Create (chat_request cli (profile_messages tpl) (3 # 10)%Q)] |}).
Proof.
  intros endpoint w st cli name tpl code message Hc Hclick He Ht.
  unfold page_landing, bind.
  rewrite (landing_buttons_click endpoint w _ name tpl st Hclick).
  set (st0 := {| sess := set_form tpl (sess st); trace := trace st |}).
  rewrite (groq_chat_with_client endpoint _ _ st0 cli st0
             (get_client_cached endpoint st0 cli Hc)).
  simpl seq.
  rewrite (attempts_fatal endpoint _ _ cli 0 _ st0 code message He Ht).
  reflexivity.
Qed.

Lemma template_click_generates_profile_witness :
  client (sess demo_landing) = Some demo_client
  /\ clicked_template (clicking (py "Product Manager")) PRELOADED_TEMPLATES
     = Some (py "Product Manager", product_manager)
  /\ page_landing endpoint_two_lines (clicking (py "Product Manager")) demo_landing
     = (Raised RerunException,
        {| sess := set_page profile
                     (set_profile_md (Some (py "EVALUATION: Good clarity
QUESTION: Tell me about X"))
                        (set_form product_manager (sess demo_landing)));
           trace := trace demo_landing
                    ++ [Create (chat_request demo_client
                                  (profile_messages product_manager)
                                  (3 # 10)%Q)] |}).
Proof.
  split; [reflexivity|]. split; [reflexivity|].
  exact (template_click_generates_profile endpoint_two_lines
           (clicking (py "Product Manager")) demo_landing demo_client
           (py "Product Manager") product_manager _ eq_refl eq_refl eq_refl).
Defined.

Lemma template_click_refused_witness :
  client (sess demo_landing) = Some demo_client
  /\ clicked_template (clicking (py "Product Manager")) PRELOADED_TEMPLATES
     = Some (py "Product Manager", product_manager)
  /\ transient 401 = false
  /\ page_landing (endpoint_fails_always 401) (clicking (py "Product Manager"))
       demo_landing
     = (Raised (GroqError 401 (py "error")),
        {| sess := set_form product_manager (sess demo_landing);
           trace := trace demo_landing
                    ++ [Create (chat_request demo_client
                                  (profile_messages product_manager)
                                  (3 # 10)%Q)] |}).
Proof.
  split; [reflexivity|]. split; [reflexivity|]. split; [reflexivity|].
  exact (template_click_refused (endpoint_fails_always 401)
           (clicking (py "Product Manager")) demo_landing demo_client
           (py "Product Manager") product_manager 401%Z (py "error")
           eq_refl eq_refl eq_refl eq_refl).
Defined.

(** X18. Starting an interview discards the turns and the report of the
    one before and keeps the profile; the run that follows, with a
    validated client and an endpoint that answers at once, greets from
    that profile: the history is the stripped answer as one interviewer
    turn. *)
Theorem start_interview_then_greeting :
  forall endpoint w st cli text,
    button w (py "🚀 Start interview") = true ->
    client (sess st) = Some cli ->
    endpoint (creates (trace st))
      (chat_request cli (greet_messages (profile_md (sess st))) (5 # 10)%Q)
    = Completion text ->
    exists st1,
      page_profile w st = (Raised RerunException, st1)
      /\ sess st1
         = set_page interview (set_report_md (Some []) (set_history [] (sess st)))
      /\ exists st2,
           greeting_step endpoint st1 = (Returned tt, st2)
           /\ history (sess st2) = [interviewer_turn (strip text)]
           /\ report_md (sess st2) = Some []
           /\ profile_md (sess st2) = profile_md (sess st).
Proof.
  intros endpoint w st cli text Hb Hc He.
  eexists. split.
  { unfold page_profile, bind, when, modify, st_rerun, raise. rewrite Hb.
    cbn [sess trace]. reflexivity. }
  split; [reflexivity|].
  match goal with |- context [greeting_step endpoint ?s] => set (st1 := s) end.
  rewrite greeting_step_run. cbn [st1 sess history set_page set_report_md set_history].
  assert (C1 : client (sess st1) = Some cli) by exact Hc.
  rewrite (groq_chat_with_client endpoint _ _ st1 cli st1
             (get_client_cached endpoint st1 cli C1)).
  simpl seq.
  rewrite (attempts_success endpoint _ _ cli 0 _ st1 text He).
  eexists. split; [reflexivity|]. repeat split.
Qed.

Lemma start_interview_then_greeting_witness :
  button (clicking (py "🚀 Start interview")) (py "🚀 Start interview") = true
  /\ client (sess demo_profile) = Some demo_client
  /\ exists st1,
       page_profile (clicking (py "🚀 Start interview")) demo_profile
       = (Raised RerunException, st1)
       /\ sess st1
          = set_page interview
              (set_report_md (Some []) (set_history [] (sess demo_profile)))
       /\ exists st2,
            greeting_step endpoint_welcomes st1 = (Returned tt, st2)
            /\ history (sess st2) = [interviewer_turn (strip (py "  Welcome. "))]
            /\ report_md (sess st2) = Some []
            /\ profile_md (sess st2) = profile_md (sess demo_profile).
Proof.
  split; [reflexivity|]. split; [reflexivity|].
  exact (start_interview_then_greeting endpoint_welcomes
           (clicking (py "🚀 Start interview")) demo_profile demo_client
           (py "  Welcome. ") eq_refl eq_refl eq_refl).
Defined.
